(** * I2CManager.cpp: the request block helpers and the manager's
      common (backend independent) layer.

    The file embeds [I2CManager.cpp] of CommandStation-EX.  The C++ file
    includes [I2CManager.h] (status and operation constants, the
    [I2CRB] layout, a few inline members) and one of the target specific
    drivers ([_initialise], [_setClock], [queueRequest], [loop] and the
    request-block overloads of [write], [write_P] and [read]).  Those
    are not part of this translation unit: the constants are the fields
    of the class [I2CManager_h], the driver is a record [Backend], and
    everything below is stated for all of them. *)

From Stdlib Require Import ZArith List String Bool Lia Arith Permutation Sorted.
Import ListNotations.
Local Open Scope Z_scope.

Set Implicit Arguments.

(* ================================================================= *)
(** ** Constants of I2CManager.h *)

(** Status codes ([uint8_t] enumeration) and operation codes
    ([OperationEnum : uint8_t]).  [OPERATION_NORETRY] is or-ed into the
    operation field to suppress retries. *)
Class I2CManager_h : Type := {
  I2C_STATUS_OK : Z;
  I2C_STATUS_TRUNCATED : Z;
  I2C_STATUS_NEGATIVE_ACKNOWLEDGE : Z;
  I2C_STATUS_TRANSMIT_ERROR : Z;
  I2C_STATUS_OTHER_TWI_ERROR : Z;
  I2C_STATUS_TIMEOUT : Z;
  I2C_STATUS_ARBITRATION_LOST : Z;
  I2C_STATUS_BUS_ERROR : Z;
  I2C_STATUS_UNEXPECTED_ERROR : Z;
  I2C_STATUS_PENDING : Z;
  OPERATION_READ : Z;
  OPERATION_REQUEST : Z;
  OPERATION_SEND : Z;
  OPERATION_NORETRY : Z
}.

(** The values published in the project's I2CManager.h; they instantiate
    the development on concrete inputs. *)
Definition header_values : I2CManager_h := {|
  I2C_STATUS_OK := 0;
  I2C_STATUS_TRUNCATED := 1;
  I2C_STATUS_NEGATIVE_ACKNOWLEDGE := 2;
  I2C_STATUS_TRANSMIT_ERROR := 3;
  I2C_STATUS_OTHER_TWI_ERROR := 4;
  I2C_STATUS_TIMEOUT := 5;
  I2C_STATUS_ARBITRATION_LOST := 6;
  I2C_STATUS_BUS_ERROR := 7;
  I2C_STATUS_UNEXPECTED_ERROR := 8;
  I2C_STATUS_PENDING := 253;
  OPERATION_READ := 1;
  OPERATION_REQUEST := 2;
  OPERATION_SEND := 3;
  OPERATION_NORETRY := 128
|}.

(** The ten case labels of [getErrorMessage], in source order. *)
Definition status_codes {h : I2CManager_h} : list Z :=
  [ I2C_STATUS_OK; I2C_STATUS_TRUNCATED; I2C_STATUS_NEGATIVE_ACKNOWLEDGE;
    I2C_STATUS_TRANSMIT_ERROR; I2C_STATUS_OTHER_TWI_ERROR; I2C_STATUS_TIMEOUT;
    I2C_STATUS_ARBITRATION_LOST; I2C_STATUS_BUS_ERROR;
    I2C_STATUS_UNEXPECTED_ERROR; I2C_STATUS_PENDING ].

(** A [switch] does not compile with two equal case labels. *)
Definition distinct_case_labels {h : I2CManager_h} : Prop := NoDup status_codes.

(** Values of type [uint8_t], and the conversion of an [int] to it. *)
Definition is_uint8 (x : Z) : Prop := 0 <= x < 256.
Definition to_uint8 (x : Z) : Z := x mod 2 ^ 8.

(* ================================================================= *)
(** ** The request block *)

(** Addresses of byte buffers; [NULL] is address 0. *)
Definition bufptr := Z.
Definition NULL : bufptr := 0.

(** The members of [I2CRB] that I2CManager.cpp reads or writes. *)
Record I2CRB : Type := mkI2CRB {
  status : Z;
  writeLen : Z;
  readLen : Z;
  operation : Z;
  i2cAddress : Z;
  readBuffer : bufptr;
  writeBuffer : bufptr
}.

Section RequestBlock.
Context {h : I2CManager_h}.

Definition setReadParams (this : I2CRB) (i2cAddress_ : Z)
    (readBuffer_ : bufptr) (readLen_ : Z) : I2CRB :=
  {| i2cAddress := i2cAddress_;
     writeLen := 0;
     readBuffer := readBuffer_;
     readLen := readLen_;
     operation := OPERATION_READ;
     status := I2C_STATUS_OK;
     writeBuffer := writeBuffer this |}.

Definition setRequestParams (this : I2CRB) (i2cAddress_ : Z)
    (readBuffer_ : bufptr) (readLen_ : Z)
    (writeBuffer_ : bufptr) (writeLen_ : Z) : I2CRB :=
  {| i2cAddress := i2cAddress_;
     writeBuffer := writeBuffer_;
     writeLen := writeLen_;
     readBuffer := readBuffer_;
     readLen := readLen_;
     operation := OPERATION_REQUEST;
     status := I2C_STATUS_OK |}.

Definition setWriteParams (this : I2CRB) (i2cAddress_ : Z)
    (writeBuffer_ : bufptr) (writeLen_ : Z) : I2CRB :=
  {| i2cAddress := i2cAddress_;
     writeBuffer := writeBuffer_;
     writeLen := writeLen_;
     readLen := 0;
     operation := OPERATION_SEND;
     status := I2C_STATUS_OK;
     readBuffer := readBuffer this |}.

Definition set_operation (this : I2CRB) (op : Z) : I2CRB :=
  {| status := status this; writeLen := writeLen this;
     readLen := readLen this; operation := op;
     i2cAddress := i2cAddress this; readBuffer := readBuffer this;
     writeBuffer := writeBuffer this |}.

(** [operation |= OPERATION_NORETRY] or [operation &= ~OPERATION_NORETRY];
    the operands are promoted to [int] and the result is stored back
    into the [uint8_t] member. *)
Definition suppressRetries (this : I2CRB) (suppress : bool) : I2CRB :=
  if suppress then
    set_operation this (to_uint8 (Z.lor (operation this) OPERATION_NORETRY))
  else
    set_operation this
      (to_uint8 (Z.land (operation this) (Z.lnot OPERATION_NORETRY))).

Definition set_status (this : I2CRB) (st : Z) : I2CRB :=
  {| status := st; writeLen := writeLen this;
     readLen := readLen this; operation := operation this;
     i2cAddress := i2cAddress this; readBuffer := readBuffer this;
     writeBuffer := writeBuffer this |}.

(** Modelled from the spec: the constructor [I2CRB()] is declared in the
    absent header; "every operation starts at OK", the other members of
    a fresh automatic object keep whatever the stack slot held. *)
Definition I2CRB_ctor (slot : I2CRB) : I2CRB := set_status slot I2C_STATUS_OK.

(** [getErrorMessage]: the [switch] compares the argument with the case
    labels; the messages are the [F("...")] literals. *)
Definition getErrorMessage (status_ : Z) : string :=
  if status_ =? I2C_STATUS_OK then "OK"
  else if status_ =? I2C_STATUS_TRUNCATED then "Transmission truncated"
  else if status_ =? I2C_STATUS_NEGATIVE_ACKNOWLEDGE
    then "No response from device (address NAK)"
  else if status_ =? I2C_STATUS_TRANSMIT_ERROR then "Transmit error (data NAK)"
  else if status_ =? I2C_STATUS_OTHER_TWI_ERROR then "Other Wire/TWI error"
  else if status_ =? I2C_STATUS_TIMEOUT then "Timeout"
  else if status_ =? I2C_STATUS_ARBITRATION_LOST then "Arbitration lost"
  else if status_ =? I2C_STATUS_BUS_ERROR then "I2C bus error"
  else if status_ =? I2C_STATUS_UNEXPECTED_ERROR then "Unexpected error"
  else if status_ =? I2C_STATUS_PENDING then "Request pending"
  else "Error code not recognised".

End RequestBlock.

(* ================================================================= *)
(** ** Memory, the driver and the manager's state *)

(** Request blocks are caller-owned objects that the driver reaches
    through pointers, so they live in a store shared by the manager, the
    callers and the driver.  A pointer to a request block is the index of
    its slot; automatic objects ([I2CRB rb;]) take the slot at the stack
    pointer.  Byte buffers live in [bytes]. *)
Definition ptr := nat.

Record Memory : Type := mkMemory {
  blocks : ptr -> I2CRB;
  bytes : bufptr -> Z
}.

Definition store_block (p : ptr) (rb : I2CRB) (m : Memory) : Memory :=
  {| blocks := fun q => if Nat.eqb q p then rb else blocks m q;
     bytes := bytes m |}.

Definition store_byte (a : bufptr) (v : Z) (m : Memory) : Memory :=
  {| blocks := blocks m;
     bytes := fun b => if b =? a then v else bytes m b |}.

Inductive Pin : Type := SDA | SCL.

(** The request-block overloads [write(addr, buf, len, &req)],
    [write_P(addr, data, len, &req)] and
    [read(addr, rbuf, rlen, wbuf, wlen, &req)] of the driver. *)
Inductive Submission : Type :=
| SubWrite (i2cAddress_ : Z) (writeBuffer_ : bufptr) (writeLen_ : Z)
| SubWriteP (i2cAddress_ : Z) (data : bufptr) (dataLen : Z)
| SubRead (i2cAddress_ : Z) (readBuffer_ : bufptr) (readLen_ : Z)
          (writeBuffer_ : bufptr) (writeLen_ : Z).

(** The target specific driver.  Each function receives what the C++
    function can reach: the shared memory and the driver's own data
    ([B]: queue, peripheral registers, the bus and its devices); the
    functions that consult the static [timeout] get its value.  The
    private members [_beginCompleted], [_clockSpeed], [_clockSpeedFixed]
    and [timeout] are written by I2CManager.cpp only. *)
Class Backend : Type := mkBackend {
  B : Type;
  _initialise_hw : B -> B;
  _setClock_hw : Z -> B -> B;
  digitalRead_hw : Pin -> B -> Z;
  queueRequest_hw : Z -> ptr -> Memory * B -> Memory * B;
  loop_hw : Z -> Memory * B -> Memory * B;
  submit_hw : Submission -> Z -> ptr -> Memory * B -> Z * (Memory * B)
}.

(** Calls that leave I2CManager.cpp, in the order they happen.  A
    [queueRequest] event carries the request block as it was handed
    over and the timeout in force. *)
Inductive Event : Type :=
| EvInitialise
| EvDigitalRead (pin : Pin)
| EvDiag (fmt : string) (args : list Z)
| EvSetClock (speed : Z)
| EvQueueRequest (tmo : Z) (rb : I2CRB)
| EvLoop (tmo : Z)
| EvSubmit (tmo : Z) (sub : Submission).

(** The data members of [I2CManagerClass] used here. *)
Record Manager : Type := mkManager {
  _beginCompleted : bool;
  _clockSpeed : Z;
  _clockSpeedFixed : bool;
  timeout : Z
}.

Section ManagerModel.
Context {h : I2CManager_h} {be : Backend}.

Record State : Type := mkState {
  mgr : Manager;
  mem : Memory;
  rsp : ptr;          (* first free request-block slot of the stack *)
  bsp : bufptr;       (* first free byte of the stack *)
  hw : @B be;
  trace : list Event
}.

Definition with_mgr (g : Manager) (s : State) : State :=
  mkState g (mem s) (rsp s) (bsp s) (hw s) (trace s).
Definition with_mem (m : Memory) (s : State) : State :=
  mkState (mgr s) m (rsp s) (bsp s) (hw s) (trace s).
Definition with_rsp (p : ptr) (s : State) : State :=
  mkState (mgr s) (mem s) p (bsp s) (hw s) (trace s).
Definition with_bsp (a : bufptr) (s : State) : State :=
  mkState (mgr s) (mem s) (rsp s) a (hw s) (trace s).
Definition with_hw (b : @B be) (s : State) : State :=
  mkState (mgr s) (mem s) (rsp s) (bsp s) b (trace s).
Definition log (e : Event) (s : State) : State :=
  mkState (mgr s) (mem s) (rsp s) (bsp s) (hw s) (trace s ++ [e]).

(** *** A state monad with failure (fuel exhausted, undefined behaviour) *)
Definition M (A : Type) : Type := State -> option (A * State).
Definition ret {A} (a : A) : M A := fun s => Some (a, s).
Definition bind {A C} (m : M A) (k : A -> M C) : M C :=
  fun s => match m s with
           | Some (a, s') => k a s'
           | None => None
           end.
Definition fail {A} : M A := fun _ => None.
Definition call (f : State -> State) : M unit := fun s => Some (tt, f s).
Definition gets {A} (f : State -> A) : M A := fun s => Some (f s, s).
Definition when (c : bool) (m : M unit) : M unit := if c then m else ret tt.

Local Notation "x <- m ;; k" := (bind m (fun x => k))
  (at level 61, m at next level, right associativity).
Local Notation "m ;; k" := (bind m (fun _ => k))
  (at level 61, right associativity).

(** *** Calls into the driver and the diagnostics *)
Definition DIAG (fmt : string) (args : list Z) (s : State) : State :=
  log (EvDiag fmt args) s.

Definition _initialise (s : State) : State :=
  log EvInitialise (with_hw (_initialise_hw (hw s)) s).

Definition _setClock (speed : Z) (s : State) : State :=
  log (EvSetClock speed) (with_hw (_setClock_hw speed (hw s)) s).

Definition digitalRead (pin : Pin) : M Z :=
  fun s => Some (digitalRead_hw pin (hw s), log (EvDigitalRead pin) s).

Definition queueRequest (req : ptr) (s : State) : State :=
  let '(m', b') := queueRequest_hw (timeout (mgr s)) req (mem s, hw s) in
  log (EvQueueRequest (timeout (mgr s)) (blocks (mem s) req))
      (with_hw b' (with_mem m' s)).

Definition loop (s : State) : State :=
  let '(m', b') := loop_hw (timeout (mgr s)) (mem s, hw s) in
  log (EvLoop (timeout (mgr s))) (with_hw b' (with_mem m' s)).

Definition submit (sub : Submission) (req : ptr) : M Z :=
  fun s =>
    let '(st, (m', b')) := submit_hw sub (timeout (mgr s)) req (mem s, hw s) in
    Some (st, log (EvSubmit (timeout (mgr s)) sub) (with_hw b' (with_mem m' s))).

(** *** Automatic objects *)
(** [I2CRB rb;]: the object takes the next stack slot and is constructed
    in place. *)
Definition new_I2CRB : M ptr :=
  fun s =>
    let p := rsp s in
    Some (p, with_rsp (S p)
               (with_mem (store_block p (I2CRB_ctor (blocks (mem s) p)) (mem s)) s)).

(** End of the scope of the innermost automatic request block. *)
Definition delete_I2CRB (s : State) : State := with_rsp (Nat.pred (rsp s)) s.

(** [uint8_t buffer[n];] and the end of its scope. *)
Definition alloca (n : Z) : M bufptr :=
  fun s => Some (bsp s, with_bsp (bsp s + n) s).
Definition freea (n : Z) (s : State) : State := with_bsp (bsp s - n) s.

(** A member function applied to the object behind a pointer. *)
Definition on_block (this : ptr) (f : I2CRB -> I2CRB) (s : State) : State :=
  with_mem (store_block this (f (blocks (mem s) this)) (mem s)) s.

Definition status_of (this : ptr) (s : State) : Z := status (blocks (mem s) this).

(** *** I2CRB::wait and I2CRB::isBusy *)
(** The [while] loop of [wait] runs as long as the driver leaves the
    block pending; [fuel] bounds the number of iterations. *)
Fixpoint wait (fuel : nat) (this : ptr) (s : State) : option (Z * State) :=
  if status_of this s =? I2C_STATUS_PENDING then
    match fuel with
    | O => None
    | S fuel' => wait fuel' this (loop s)
    end
  else Some (status_of this s, s).

Definition isBusy (this : ptr) (s : State) : bool * State :=
  if status_of this s =? I2C_STATUS_PENDING then (true, loop s)
  else (false, s).

(** *** Clock speed *)
Definition set_clockSpeed (speed : Z) (s : State) : State :=
  with_mgr (mkManager (_beginCompleted (mgr s)) speed
                      (_clockSpeedFixed (mgr s)) (timeout (mgr s))) s.
Definition set_clockSpeedFixed (f : bool) (s : State) : State :=
  with_mgr (mkManager (_beginCompleted (mgr s)) (_clockSpeed (mgr s))
                      f (timeout (mgr s))) s.
Definition set_beginCompleted (f : bool) (s : State) : State :=
  with_mgr (mkManager f (_clockSpeed (mgr s))
                      (_clockSpeedFixed (mgr s)) (timeout (mgr s))) s.

(** Modelled from the spec: [setTimeout] is an inline member of the
    absent header; it "sets the per-attempt wall-clock budget". *)
Definition setTimeout (value : Z) (s : State) : State :=
  with_mgr (mkManager (_beginCompleted (mgr s)) (_clockSpeed (mgr s))
                      (_clockSpeedFixed (mgr s)) value) s.

Definition setClock (speed : Z) (s : State) : State :=
  let s1 :=
    if (speed <? _clockSpeed (mgr s)) && negb (_clockSpeedFixed (mgr s)) then
      let s' := set_clockSpeed speed s in
      DIAG "I2C clock speed set to %l Hz" [_clockSpeed (mgr s')] s'
    else s in
  _setClock (_clockSpeed (mgr s1)) s1.

Definition forceClock (speed : Z) (s : State) : State :=
  let s1 := set_clockSpeed speed s in
  let s2 := set_clockSpeedFixed true s1 in
  let s3 := _setClock (_clockSpeed (mgr s2)) s2 in
  DIAG "I2C clock speed forced to %l Hz" [_clockSpeed (mgr s3)] s3.

(** *** Probing *)
Definition checkAddress (fuel : nat) (address : Z) : M Z :=
  rb <- new_I2CRB ;;
  call (on_block rb (fun this => setWriteParams this address NULL 0)) ;;
  call (on_block rb (fun this => suppressRetries this true)) ;;
  call (queueRequest rb) ;;
  r <- wait fuel rb ;;
  call delete_I2CRB ;;
  ret r.

(** Modelled from the spec: [exists] is an inline member of the absent
    header; the start-up scan probes "with retries disabled", which is
    [checkAddress], the "is anything there" probe, and a device is there
    when the probe ends with status OK. *)
Definition exists_ (fuel : nat) (address : Z) : M bool :=
  st <- checkAddress fuel address ;;
  ret (st =? I2C_STATUS_OK).

(** [for (byte addr=1; addr<127; addr++)] with [found] carried along;
    [n] bounds the number of evaluations of the loop condition. *)
Fixpoint scan (n : nat) (fuel : nat) (addr : Z) (found : bool) : M bool :=
  match n with
  | O => fail
  | S n' =>
      if addr <? 127 then
        e <- exists_ fuel addr ;;
        found' <- (if e : bool then
                     call (DIAG "I2C Device found at x%x" [addr]) ;; ret true
                   else ret found) ;;
        scan n' fuel (to_uint8 (addr + 1)) found'
      else ret found
  end.

Definition begin (fuel : nat) : M unit :=
  fun s =>
    if negb (_beginCompleted (mgr s)) then
      ( call (set_beginCompleted true) ;;
        call _initialise ;;
        sda <- digitalRead SDA ;;
        when (sda =? 0)
          (call (DIAG "WARNING: Possible short-circuit on I2C SDA line" [])) ;;
        scl <- digitalRead SCL ;;
        when (scl =? 0)
          (call (DIAG "WARNING: Possible short-circuit on I2C SCL line" [])) ;;
        call (_setClock 100000) ;;
        originalTimeout <- gets (fun s => timeout (mgr s)) ;;
        call (setTimeout 1000) ;;
        found <- scan 127 fuel 1 false ;;
        when (negb found) (call (DIAG "No I2C Devices found" [])) ;;
        speed <- gets (fun s => _clockSpeed (mgr s)) ;;
        call (_setClock speed) ;;
        call (setTimeout originalTimeout) ) s
    else Some (tt, s).

(** *** Blocking convenience calls *)
Definition finishRB (fuel : nat) (rb : option ptr) (status_ : Z) : M Z :=
  match rb with
  | Some p => if status_ =? I2C_STATUS_OK then wait fuel p else ret status_
  | None => ret status_
  end.

Definition write (fuel : nat) (i2cAddress_ : Z) (writeBuffer_ : bufptr)
    (writeLen_ : Z) : M Z :=
  req <- new_I2CRB ;;
  status_ <- submit (SubWrite i2cAddress_ writeBuffer_ writeLen_) req ;;
  r <- finishRB fuel (Some req) status_ ;;
  call delete_I2CRB ;;
  ret r.

Definition write_P (fuel : nat) (i2cAddress_ : Z) (data : bufptr)
    (dataLen : Z) : M Z :=
  req <- new_I2CRB ;;
  status_ <- submit (SubWriteP i2cAddress_ data dataLen) req ;;
  r <- finishRB fuel (Some req) status_ ;;
  call delete_I2CRB ;;
  ret r.

Definition read (fuel : nat) (i2cAddress_ : Z) (readBuffer_ : bufptr)
    (readLen_ : Z) (writeBuffer_ : bufptr) (writeLen_ : Z) : M Z :=
  req <- new_I2CRB ;;
  status_ <- submit (SubRead i2cAddress_ readBuffer_ readLen_
                             writeBuffer_ writeLen_) req ;;
  r <- finishRB fuel (Some req) status_ ;;
  call delete_I2CRB ;;
  ret r.

(** [for (uint8_t i=0; i<n; i++) buffer[i] = va_arg(args, int);]
    Reading more variadic arguments than were passed is undefined. *)
Fixpoint va_copy (k : nat) (i n : Z) (buffer : bufptr) (args : list Z) : M unit :=
  match k with
  | O => fail
  | S k' =>
      if i <? n then
        match args with
        | [] => fail
        | a :: rest =>
            call (fun s => with_mem (store_byte (buffer + i) (to_uint8 a) (mem s)) s) ;;
            va_copy k' (to_uint8 (i + 1)) n buffer rest
        end
      else ret tt
  end.

Definition write_va (fuel : nat) (address nBytes : Z) (args : list Z) : M Z :=
  buffer <- alloca nBytes ;;
  va_copy 257 0 nBytes buffer args ;;
  r <- write fuel address buffer nBytes ;;
  call (freea nBytes) ;;
  ret r.

Definition read_va (fuel : nat) (address : Z) (readBuffer_ : bufptr)
    (readSize writeSize : Z) (args : list Z) : M Z :=
  writeBuffer_ <- alloca writeSize ;;
  va_copy 257 0 writeSize writeBuffer_ args ;;
  r <- read fuel address readBuffer_ readSize writeBuffer_ writeSize ;;
  call (freea writeSize) ;;
  ret r.

End ManagerModel.

(* ================================================================= *)
(** ** Observations on the trace and the driver's contract *)

Definition loop_events (l : list Event) : list Z :=
  flat_map (fun e => match e with EvLoop tmo => [tmo] | _ => [] end) l.

(** Number of scheduler advancement steps recorded in a trace. *)
Definition loop_steps (l : list Event) : nat := List.length (loop_events l).

Definition initialisations (l : list Event) : nat :=
  List.length (flat_map (fun e => match e with EvInitialise => [tt] | _ => [] end) l).

Definition line_checks (l : list Event) : list Pin :=
  flat_map (fun e => match e with EvDigitalRead p => [p] | _ => [] end) l.

(** The requests handed to [queueRequest], with the timeout in force. *)
Definition probes (l : list Event) : list (Z * I2CRB) :=
  flat_map (fun e => match e with EvQueueRequest tmo rb => [(tmo, rb)] | _ => [] end) l.

Definition clock_calls (l : list Event) : list Z :=
  flat_map (fun e => match e with EvSetClock v => [v] | _ => [] end) l.

Definition submissions (l : list Event) : list Submission :=
  flat_map (fun e => match e with EvSubmit _ sub => [sub] | _ => [] end) l.

Definition diagnostics (l : list Event) : list string :=
  flat_map (fun e => match e with EvDiag fmt _ => [fmt] | _ => [] end) l.

(** The bus addresses handed to [queueRequest]. *)
Definition probe_addresses (l : list Event) : list Z :=
  map (fun p => i2cAddress (snd p)) (probes l).

(** The addresses [first], [first]+1, ..., 126. *)
Definition addresses_from (first : Z) : list Z :=
  map Z.of_nat (seq (Z.to_nat first) (Z.to_nat (127 - first))).

Section Contract.
Context {h : I2CManager_h} {be : Backend}.

(** [k] scheduler steps, on the state and on what the driver sees. *)
Fixpoint loops (k : nat) (s : State) : State :=
  match k with
  | O => s
  | S k' => loops k' (loop s)
  end.

Fixpoint loops_hw (k : nat) (tmo : Z) (w : Memory * @B be) : Memory * @B be :=
  match k with
  | O => w
  | S k' => loops_hw k' tmo (loop_hw tmo w)
  end.

(** The block behind [p] leaves PENDING within [N] scheduler steps. *)
Definition resolves_within (N : nat) (p : ptr) (tmo : Z) (w : Memory * @B be) : Prop :=
  exists k, (k <= N)%nat /\
    status (blocks (fst (loops_hw k tmo w)) p) <> I2C_STATUS_PENDING.

(** Modelled from the spec: the contract of the absent driver's
    [queueRequest] and [loop]; a submitted block becomes PENDING and
    "later resolves to exactly one terminal value", at the latest when
    [loop] finds its deadline exceeded.  [N] bounds the scheduler steps
    that takes. *)
Definition queue_resolves (N : nat) : Prop :=
  forall tmo p w, resolves_within N p tmo (queueRequest_hw tmo p w).

(** Modelled from the spec: the same contract for the absent
    request-block overloads of [write], [write_P] and [read]; an accepted
    submission (status OK) is resolved within [N] scheduler steps. *)
Definition submit_resolves (N : nat) : Prop :=
  forall sub tmo p w,
    fst (submit_hw sub tmo p w) = I2C_STATUS_OK ->
    resolves_within N p tmo (snd (submit_hw sub tmo p w)).

(** Modelled from the spec: the contract of the absent request-block
    overloads on rejection; a request with a full queue or invalid
    parameters is "rejected synchronously at submission, never enters
    PENDING". *)
Definition reject_not_pending : Prop :=
  forall sub tmo p w,
    fst (submit_hw sub tmo p w) <> I2C_STATUS_OK ->
    status (blocks (fst (snd (submit_hw sub tmo p w))) p) <> I2C_STATUS_PENDING.

(** [k] calls of [begin] in a row. *)
Fixpoint begin_times (k : nat) (fuel : nat) : M unit :=
  match k with
  | O => ret tt
  | S k' => bind (begin fuel) (fun _ => begin_times k' fuel)
  end.

(** A list of [setClock] calls in a row. *)
Definition setClock_all (speeds : list Z) (s : State) : State :=
  fold_left (fun s speed => setClock speed s) speeds s.

(** The request block [checkAddress] builds for an address. *)
Definition is_probe_block (address : Z) (rb : I2CRB) : Prop :=
  i2cAddress rb = address /\
  operation rb = to_uint8 (Z.lor OPERATION_SEND OPERATION_NORETRY) /\
  writeLen rb = 0 /\ writeBuffer rb = NULL /\ readLen rb = 0 /\
  status rb = I2C_STATUS_OK.

(** The events of a scan of the addresses from [first] on, under timeout
    [tmo]: the addresses are probed once each and in order, every probe is
    a probe block handed over under [tmo], every scheduler step runs
    under [tmo], and nothing touches the bus clock, the bus lines or the
    driver's initialisation. *)
Definition scan_trace (tmo first : Z) (evs : list Event) : Prop :=
  probe_addresses evs = addresses_from first /\
  Forall (fun p => fst p = tmo /\ is_probe_block (i2cAddress (snd p)) (snd p))
         (probes evs) /\
  Forall (fun t => t = tmo) (loop_events evs) /\
  clock_calls evs = [] /\ line_checks evs = [] /\
  initialisations evs = 0%nat /\ submissions evs = [].

(** What the code of a blocking call does around the submission [sub]
    when started in [s]: the transient block is the stack slot [rsp s];
    an accepted submission is waited for and its terminal status
    returned, a rejected one is returned at once. *)
Definition blocking_outcome (sub : Submission) (s : State)
    (res : option (Z * State)) : Prop :=
  let req := rsp s in
  exists s0 st s1,
    new_I2CRB s = Some (req, s0) /\
    status_of req s0 = I2C_STATUS_OK /\
    submit sub req s0 = Some (st, s1) /\
    trace s1 = trace s ++ [EvSubmit (timeout (mgr s)) sub] /\
    ((st = I2C_STATUS_OK ->
      exists k,
        res = Some (status_of req (loops k s1), delete_I2CRB (loops k s1)) /\
        status_of req (loops k s1) <> I2C_STATUS_PENDING /\
        trace (loops k s1) = trace s1 ++ repeat (EvLoop (timeout (mgr s))) k /\
        (forall j, (j < k)%nat -> status_of req (loops j s1) = I2C_STATUS_PENDING)) /\
     (st <> I2C_STATUS_OK ->
      res = Some (st, delete_I2CRB s1) /\
      status_of req s1 <> I2C_STATUS_PENDING)).

End Contract.

(* ================================================================= *)
(** ** A small driver to run the code on *)

(** A driver with room for one request, on a bus where no device
    answers.  [queueRequest] makes the block PENDING when the slot is
    free and rejects it otherwise; [loop] completes the active request
    with an address NAK.  Both bus lines read high. *)
Definition prepare {h : I2CManager_h} (sub : Submission) (rb : I2CRB) : I2CRB :=
  match sub with
  | SubWrite a wb wl => setWriteParams rb a wb wl
  | SubWriteP a d dl => setWriteParams rb a d dl
  | SubRead a rbuf rl wb wl => setRequestParams rb a rbuf rl wb wl
  end.

Definition nak_backend : Backend :=
  let h := header_values in
  {| B := option ptr;
     _initialise_hw := fun _ => None;
     _setClock_hw := fun _ b => b;
     digitalRead_hw := fun _ _ => 1;
     queueRequest_hw := fun _ p w =>
       match snd w with
       | None => (store_block p (set_status (blocks (fst w) p) I2C_STATUS_PENDING) (fst w),
                  Some p)
       | Some q => (store_block p (set_status (blocks (fst w) p) I2C_STATUS_BUS_ERROR) (fst w),
                    Some q)
       end;
     loop_hw := fun _ w =>
       match snd w with
       | None => w
       | Some q => (store_block q (set_status (blocks (fst w) q)
                                     I2C_STATUS_NEGATIVE_ACKNOWLEDGE) (fst w), None)
       end;
     submit_hw := fun sub _ p w =>
       match snd w with
       | None => (I2C_STATUS_OK,
                  (store_block p (set_status (prepare sub (blocks (fst w) p))
                                    I2C_STATUS_PENDING) (fst w), Some p))
       | Some q => (I2C_STATUS_BUS_ERROR,
                    (store_block p (set_status (prepare sub (blocks (fst w) p))
                                      I2C_STATUS_BUS_ERROR) (fst w), Some q))
       end |}.

Definition blank_block : I2CRB := mkI2CRB 0 0 0 0 0 0 0.
Definition blank_memory : Memory := mkMemory (fun _ => blank_block) (fun _ => 0).

(** The manager before [begin]: default timeout 100000 us, nothing
    fixed, one caller-owned block in slot 0, stack from slot 1. *)
Definition power_on : @State nak_backend :=
  @mkState nak_backend (mkManager false 400000 false 100000) blank_memory 1%nat 4096 None [].

(** Slot 0 holds a block prepared for a write of 3 bytes to 0x20 and
    never submitted (status OK). *)
Definition idle_state : @State nak_backend :=
  on_block 0%nat (fun this => @setWriteParams header_values this 32 512 3) power_on.

(** The same block after [queueRequest]: PENDING and active. *)
Definition pending_state : @State nak_backend :=
  @queueRequest nak_backend 0%nat idle_state.

(** Slot 0 holds a block that went through [setWriteParams] and
    [suppressRetries(true)]. *)
Definition noretry_block : I2CRB :=
  @suppressRetries header_values (@setWriteParams header_values blank_block 32 512 3) true.

(* ================================================================= *)
(** ** Call patterns and further observations *)

(** The bus clock: the speed last handed to [_setClock], if any. *)
Definition bus_clock (l : list Event) : option Z :=
  last (map Some (clock_calls l)) None.

(** The addresses reported by "I2C Device found at x%x". *)
Definition found_reports (l : list Event) : list Z :=
  flat_map (fun e => match e with
                     | EvDiag fmt args =>
                         if String.eqb fmt "I2C Device found at x%x" then args else []
                     | _ => []
                     end) l.

(** Whether a list is empty. *)
Definition none_of (A : Type) (l : list A) : bool :=
  match l with
  | [] => true
  | _ :: _ => false
  end.

(** A call of one of the two clock functions. *)
Inductive ClockCall : Type :=
| CallSetClock (speed : Z)
| CallForceClock (speed : Z).

Section CallPatterns.
Context {h : I2CManager_h} {be : Backend}.

(** The non-blocking way to wait for a block:
    [while (rb.isBusy()) ;  status = rb.status;]
    with [fuel] bounding the iterations. *)
Fixpoint poll (fuel : nat) (this : ptr) (s : State) : option (Z * State) :=
  if fst (isBusy this s) then
    match fuel with
    | O => None
    | S fuel' => poll fuel' this (snd (isBusy this s))
    end
  else Some (status_of this (snd (isBusy this s)), snd (isBusy this s)).

Definition clock_call (c : ClockCall) (s : State) : State :=
  match c with
  | CallSetClock speed => setClock speed s
  | CallForceClock speed => forceClock speed s
  end.

(** A history of clock calls, oldest first. *)
Definition clock_history (cs : list ClockCall) (s : State) : State :=
  fold_left (fun s c => clock_call c s) cs s.

End CallPatterns.

(* ================================================================= *)
(** ** Facts about the request block *)

Lemma to_uint8_range (x : Z) : is_uint8 (to_uint8 x).
Proof.
  unfold is_uint8, to_uint8.
  change (2 ^ 8) with 256. pose proof (Z.mod_pos_bound x 256). lia.
Qed.

Lemma to_uint8_id (x : Z) : is_uint8 x -> to_uint8 x = x.
Proof.
  unfold is_uint8, to_uint8. intros Hx.
  change (2 ^ 8) with 256. apply Z.mod_small. exact Hx.
Qed.

Lemma uint8_high_bit (x i : Z) : is_uint8 x -> 8 <= i -> Z.testbit x i = false.
Proof.
  intros Hx Hi. rewrite <- (to_uint8_id Hx). unfold to_uint8.
  apply Z.mod_pow2_bits_high. lia.
Qed.

Lemma to_uint8_testbit (x i : Z) :
  0 <= i -> Z.testbit (to_uint8 x) i = (i <? 8) && Z.testbit x i.
Proof.
  intros Hi. unfold to_uint8. destruct (Z.ltb_spec i 8) as [Hlt | Hge].
  - rewrite Z.mod_pow2_bits_low by lia. reflexivity.
  - rewrite Z.mod_pow2_bits_high by lia. reflexivity.
Qed.

Section RequestBlockFacts.
Context {h : I2CManager_h}.

(** Bits of the operation field after [suppressRetries]. *)
Lemma suppressRetries_testbit (rb : I2CRB) (b : bool) (i : Z) :
  0 <= i ->
  Z.testbit (operation (suppressRetries rb b)) i =
    (i <? 8) &&
    (if b then Z.testbit (operation rb) i || Z.testbit OPERATION_NORETRY i
     else Z.testbit (operation rb) i && negb (Z.testbit OPERATION_NORETRY i)).
Proof.
  intros Hi. destruct b; simpl; rewrite to_uint8_testbit by exact Hi.
  - rewrite Z.lor_spec. reflexivity.
  - rewrite Z.land_spec, Z.lnot_spec by exact Hi. reflexivity.
Qed.

Lemma suppressRetries_operation_uint8 (rb : I2CRB) (b : bool) :
  is_uint8 (operation (suppressRetries rb b)).
Proof. destruct b; simpl; apply to_uint8_range. Qed.

(** Setting the modifier on a byte-sized field leaves it set. *)
Lemma noretry_set (rb : I2CRB) :
  is_uint8 OPERATION_NORETRY ->
  Z.land (operation (suppressRetries rb true)) OPERATION_NORETRY = OPERATION_NORETRY.
Proof.
  intros Hn. apply Z.bits_inj'. intros i Hi.
  rewrite Z.land_spec, suppressRetries_testbit by exact Hi.
  destruct (Z.ltb_spec i 8) as [Hlt | Hge]; simpl.
  - destruct (Z.testbit (operation rb) i), (Z.testbit OPERATION_NORETRY i); reflexivity.
  - symmetry. apply uint8_high_bit; assumption.
Qed.

Lemma noretry_cleared (rb : I2CRB) :
  Z.land (operation (suppressRetries rb false)) OPERATION_NORETRY = 0.
Proof.
  apply Z.bits_inj'. intros i Hi.
  rewrite Z.land_spec, suppressRetries_testbit, Z.bits_0 by exact Hi.
  destruct (i <? 8), (Z.testbit (operation rb) i), (Z.testbit OPERATION_NORETRY i);
    reflexivity.
Qed.

Lemma set_then_clear (rb : I2CRB) :
  is_uint8 (operation rb) ->
  operation (suppressRetries (suppressRetries rb true) false) =
    Z.land (operation rb) (Z.lnot OPERATION_NORETRY).
Proof.
  intros Ho. apply Z.bits_inj'. intros i Hi.
  rewrite suppressRetries_testbit, suppressRetries_testbit by exact Hi.
  rewrite Z.land_spec, Z.lnot_spec by exact Hi.
  destruct (Z.ltb_spec i 8) as [Hlt | Hge]; simpl.
  - destruct (Z.testbit (operation rb) i), (Z.testbit OPERATION_NORETRY i); reflexivity.
  - rewrite (uint8_high_bit Ho) by exact Hge. reflexivity.
Qed.

(** C5.  Each of [setWriteParams], [setReadParams] and
    [setRequestParams] sets the status to OK and the operation to SEND,
    READ and REQUEST respectively, and stores the address, the buffer
    pointers and the lengths it is given; [setWriteParams] sets the read
    length to 0 and [setReadParams] the write length to 0.  This holds
    for every prior content [rb] of the block; the only members that
    survive are the buffer pointer the setter is not given. *)
Theorem setters_prepare_block (rb : I2CRB)
    (address : Z) (rbuf : bufptr) (rlen : Z) (wbuf : bufptr) (wlen : Z) :
  (let w := setWriteParams rb address wbuf wlen in
   status w = I2C_STATUS_OK /\ operation w = OPERATION_SEND /\
   i2cAddress w = address /\ writeBuffer w = wbuf /\ writeLen w = wlen /\
   readLen w = 0 /\ readBuffer w = readBuffer rb) /\
  (let r := setReadParams rb address rbuf rlen in
   status r = I2C_STATUS_OK /\ operation r = OPERATION_READ /\
   i2cAddress r = address /\ readBuffer r = rbuf /\ readLen r = rlen /\
   writeLen r = 0 /\ writeBuffer r = writeBuffer rb) /\
  (let q := setRequestParams rb address rbuf rlen wbuf wlen in
   status q = I2C_STATUS_OK /\ operation q = OPERATION_REQUEST /\
   i2cAddress q = address /\ readBuffer q = rbuf /\ readLen q = rlen /\
   writeBuffer q = wbuf /\ writeLen q = wlen) /\
  (forall rb' : I2CRB,
     setRequestParams rb' address rbuf rlen wbuf wlen =
     setRequestParams rb address rbuf rlen wbuf wlen).
Proof.
  repeat split.
Qed.

(** C6, as amended.  [suppressRetries(b)] changes nothing but the
    no-retry bit of the operation field: every other member is kept,
    every bit of the operation outside [OPERATION_NORETRY] is kept, and
    the no-retry bit becomes [b].  [suppressRetries(true)] followed by
    [suppressRetries(false)] leaves the operation field with the bit
    cleared, which is the original field exactly when the bit was clear
    to begin with. *)
Theorem suppressRetries_only_noretry_bit (rb : I2CRB) (b : bool) :
  is_uint8 (operation rb) ->
  is_uint8 OPERATION_NORETRY ->
  let rb' := suppressRetries rb b in
  (i2cAddress rb' = i2cAddress rb /\ writeBuffer rb' = writeBuffer rb /\
   writeLen rb' = writeLen rb /\ readBuffer rb' = readBuffer rb /\
   readLen rb' = readLen rb /\ status rb' = status rb) /\
  (forall i, 0 <= i -> Z.testbit OPERATION_NORETRY i = false ->
     Z.testbit (operation rb') i = Z.testbit (operation rb) i) /\
  (forall i, 0 <= i -> Z.testbit OPERATION_NORETRY i = true ->
     Z.testbit (operation rb') i = b) /\
  Z.land (operation rb') OPERATION_NORETRY = (if b then OPERATION_NORETRY else 0) /\
  operation (suppressRetries (suppressRetries rb true) false) =
    Z.land (operation rb) (Z.lnot OPERATION_NORETRY) /\
  (Z.land (operation rb) OPERATION_NORETRY = 0 ->
   operation (suppressRetries (suppressRetries rb true) false) = operation rb).
Proof.
  intros Ho Hn rb'. subst rb'.
  split; [ destruct b; repeat split | ].
  split.
  { intros i Hi Hbit. rewrite suppressRetries_testbit by exact Hi.
    rewrite Hbit. destruct (Z.ltb_spec i 8) as [Hlt | Hge]; simpl.
    - destruct b; [ apply orb_false_r | apply andb_true_r ].
    - destruct b; symmetry; apply uint8_high_bit; assumption. }
  split.
  { intros i Hi Hbit. rewrite suppressRetries_testbit by exact Hi.
    rewrite Hbit. destruct (Z.ltb_spec i 8) as [Hlt | Hge]; simpl.
    - destruct b; [ apply orb_true_r | apply andb_false_r ].
    - rewrite (uint8_high_bit Hn) in Hbit by exact Hge. discriminate. }
  split.
  { destruct b; [ apply noretry_set; exact Hn | apply noretry_cleared ]. }
  split.
  { apply set_then_clear. exact Ho. }
  intros Hclear. rewrite set_then_clear by exact Ho.
  apply Z.bits_inj'. intros i Hi.
  rewrite Z.land_spec, Z.lnot_spec by exact Hi.
  assert (Hb : Z.testbit (Z.land (operation rb) OPERATION_NORETRY) i = false)
    by (rewrite Hclear; apply Z.bits_0).
  rewrite Z.land_spec in Hb.
  destruct (Z.testbit (operation rb) i), (Z.testbit OPERATION_NORETRY i);
    simpl in *; congruence.
Qed.

End RequestBlockFacts.

Section ErrorMessages.
Context {h : I2CManager_h}.

(** The messages of the ten case labels, in source order. *)
Lemma getErrorMessage_cases :
  distinct_case_labels ->
  map getErrorMessage status_codes =
    [ "OK"%string; "Transmission truncated"%string;
      "No response from device (address NAK)"%string;
      "Transmit error (data NAK)"%string; "Other Wire/TWI error"%string;
      "Timeout"%string; "Arbitration lost"%string; "I2C bus error"%string;
      "Unexpected error"%string; "Request pending"%string ].
Proof.
  unfold distinct_case_labels, status_codes. intros Hd.
  repeat match goal with
         | H : NoDup (_ :: _) |- _ => inversion H; clear H; subst
         end.
  cbn [In] in *.
  repeat match goal with
         | H : ~ (_ \/ _) |- _ => apply Decidable.not_or in H; destruct H
         end.
  unfold getErrorMessage. cbn [map].
  repeat match goal with
         | |- context [Z.eqb ?a ?b] =>
             destruct (Z.eqb_spec a b); [ try congruence | ]
         end;
    try congruence.
Qed.

(** C9.  [getErrorMessage] is a function of the status code alone.
    With the case labels pairwise distinct (as a [switch] requires),
    the ten status codes OK, TRUNCATED, NEGATIVE_ACKNOWLEDGE,
    TRANSMIT_ERROR, OTHER_TWI_ERROR, TIMEOUT, ARBITRATION_LOST,
    BUS_ERROR, UNEXPECTED_ERROR and PENDING map to ten messages that
    differ from each other and from the default; every other input maps
    to the default "Error code not recognised". *)
Theorem getErrorMessage_total_lookup :
  distinct_case_labels ->
  map getErrorMessage status_codes =
    [ "OK"%string; "Transmission truncated"%string;
      "No response from device (address NAK)"%string;
      "Transmit error (data NAK)"%string; "Other Wire/TWI error"%string;
      "Timeout"%string; "Arbitration lost"%string; "I2C bus error"%string;
      "Unexpected error"%string; "Request pending"%string ] /\
  NoDup ("Error code not recognised"%string :: map getErrorMessage status_codes) /\
  (forall st : Z, ~ In st status_codes ->
     getErrorMessage st = "Error code not recognised"%string) /\
  (forall st : Z, In st status_codes ->
     getErrorMessage st <> "Error code not recognised"%string).
Proof.
  intros Hd. pose proof (getErrorMessage_cases Hd) as Hmap.
  assert (Hnd : NoDup ("Error code not recognised"%string
                         :: map getErrorMessage status_codes)).
  { rewrite Hmap.
    repeat (constructor; [ cbn [In]; intuition discriminate | ]).
    constructor. }
  split; [ exact Hmap | ]. split; [ exact Hnd | ]. split.
  - intros st Hst. unfold status_codes in Hst. cbn [In] in Hst.
    unfold getErrorMessage.
    repeat match goal with
           | |- context [Z.eqb ?a ?b] =>
               destruct (Z.eqb_spec a b); [ exfalso; apply Hst; subst; tauto | ]
           end.
    reflexivity.
  - intros st Hst Heq. inversion Hnd as [ | x l Hnotin _ ]. subst.
    apply Hnotin. rewrite <- Heq.
    exact (in_map getErrorMessage status_codes st Hst).
Qed.

End ErrorMessages.

Section Repreparation.
Context {h : I2CManager_h}.

(** C10.  A parameter setter stores the bare operation code, whatever
    the block held before, so a no-retry modifier set earlier by
    [suppressRetries(true)] is gone after it; as no operation code
    contains the no-retry bit, the bit reads clear.  Applying
    [suppressRetries(true)] after the setter, the order [checkAddress]
    uses, gives a block with the modifier set. *)
Theorem setters_discard_noretry (rb : I2CRB)
    (address : Z) (rbuf : bufptr) (rlen : Z) (wbuf : bufptr) (wlen : Z) :
  is_uint8 OPERATION_NORETRY ->
  Z.land OPERATION_SEND OPERATION_NORETRY = 0 ->
  Z.land OPERATION_READ OPERATION_NORETRY = 0 ->
  Z.land OPERATION_REQUEST OPERATION_NORETRY = 0 ->
  let rb1 := suppressRetries rb true in
  (operation (setWriteParams rb1 address wbuf wlen) = OPERATION_SEND /\
   operation (setReadParams rb1 address rbuf rlen) = OPERATION_READ /\
   operation (setRequestParams rb1 address rbuf rlen wbuf wlen) = OPERATION_REQUEST) /\
  (Z.land (operation (setWriteParams rb1 address wbuf wlen)) OPERATION_NORETRY = 0 /\
   Z.land (operation (setReadParams rb1 address rbuf rlen)) OPERATION_NORETRY = 0 /\
   Z.land (operation (setRequestParams rb1 address rbuf rlen wbuf wlen))
          OPERATION_NORETRY = 0) /\
  (setWriteParams rb1 address wbuf wlen = setWriteParams rb address wbuf wlen /\
   setReadParams rb1 address rbuf rlen = setReadParams rb address rbuf rlen /\
   setRequestParams rb1 address rbuf rlen wbuf wlen =
     setRequestParams rb address rbuf rlen wbuf wlen) /\
  (Z.land (operation (suppressRetries (setWriteParams rb address wbuf wlen) true))
          OPERATION_NORETRY = OPERATION_NORETRY /\
   Z.land (operation (suppressRetries (setReadParams rb address rbuf rlen) true))
          OPERATION_NORETRY = OPERATION_NORETRY /\
   Z.land (operation (suppressRetries
                        (setRequestParams rb address rbuf rlen wbuf wlen) true))
          OPERATION_NORETRY = OPERATION_NORETRY) /\
  is_probe_block address (suppressRetries (setWriteParams rb address NULL 0) true).
Proof.
  intros Hn Hs Hr Hq rb1.
  split; [ repeat split | ].
  split; [ cbn [operation setWriteParams setReadParams setRequestParams];
           repeat split; assumption | ].
  split; [ subst rb1; destruct rb; repeat split | ].
  split; [ repeat split; apply noretry_set; exact Hn | ].
  repeat split.
Qed.

End Repreparation.

(* ================================================================= *)
(** ** Clock speed *)

Section ClockSpeed.
Context {h : I2CManager_h} {be : Backend}.

Lemma setClock_clockSpeed (speed : Z) (s : State) :
  _clockSpeed (mgr (setClock speed s)) =
    if (speed <? _clockSpeed (mgr s)) && negb (_clockSpeedFixed (mgr s))
    then speed else _clockSpeed (mgr s).
Proof.
  unfold setClock.
  destruct ((speed <? _clockSpeed (mgr s)) && negb (_clockSpeedFixed (mgr s)));
    reflexivity.
Qed.

Lemma setClock_clockSpeedFixed (speed : Z) (s : State) :
  _clockSpeedFixed (mgr (setClock speed s)) = _clockSpeedFixed (mgr s).
Proof.
  unfold setClock.
  destruct ((speed <? _clockSpeed (mgr s)) && negb (_clockSpeedFixed (mgr s)));
    reflexivity.
Qed.

Lemma setClock_never_raises (speed : Z) (s : State) :
  _clockSpeed (mgr (setClock speed s)) <= _clockSpeed (mgr s).
Proof.
  rewrite setClock_clockSpeed.
  destruct (Z.ltb_spec speed (_clockSpeed (mgr s)));
    destruct (_clockSpeedFixed (mgr s)); simpl; lia.
Qed.

Lemma setClock_all_never_raises (speeds : list Z) (s : State) :
  _clockSpeed (mgr (setClock_all speeds s)) <= _clockSpeed (mgr s).
Proof.
  unfold setClock_all. revert s.
  induction speeds as [ | v speeds IH ]; intros s; simpl.
  - lia.
  - specialize (IH (setClock v s)). pose proof (setClock_never_raises v s).
    lia.
Qed.

Lemma setClock_all_fixed (speeds : list Z) (s : State) :
  _clockSpeedFixed (mgr s) = true ->
  _clockSpeed (mgr (setClock_all speeds s)) = _clockSpeed (mgr s) /\
  _clockSpeedFixed (mgr (setClock_all speeds s)) = true.
Proof.
  unfold setClock_all. revert s.
  induction speeds as [ | v speeds IH ]; intros s Hfix; simpl.
  - split; [ reflexivity | exact Hfix ].
  - assert (Hf : _clockSpeedFixed (mgr (setClock v s)) = true)
      by (rewrite setClock_clockSpeedFixed; exact Hfix).
    destruct (IH _ Hf) as [Hc Hf'].
    rewrite Hc, Hf', setClock_clockSpeed, Hfix, andb_false_r. split; reflexivity.
Qed.

(** C1.  [setClock(r)] stores [r] as the negotiated rate exactly when
    [r] is strictly below the current rate and the rate is not fixed, and
    otherwise keeps the rate; so it never raises the rate, neither in one
    call nor over a run of calls.  [forceClock(r)] sets the rate to [r]
    and fixes it, and no run of [setClock] calls after it changes the
    rate.  [setClock(5000)] then [setClock(9000)] leaves the rate where
    [setClock(5000)] put it (5000 from an unfixed rate above 5000), and
    after [forceClock(9000)] a [setClock(100)] leaves 9000. *)
Theorem clock_rate_only_decreases_unless_forced (s : State) (r : Z) :
  (_clockSpeed (mgr (setClock r s)) =
     if (r <? _clockSpeed (mgr s)) && negb (_clockSpeedFixed (mgr s))
     then r else _clockSpeed (mgr s)) /\
  (_clockSpeed (mgr (setClock r s)) = _clockSpeed (mgr s) \/
   (_clockSpeed (mgr (setClock r s)) = r /\ r < _clockSpeed (mgr s) /\
    _clockSpeedFixed (mgr s) = false)) /\
  _clockSpeed (mgr (setClock r s)) <= _clockSpeed (mgr s) /\
  _clockSpeedFixed (mgr (setClock r s)) = _clockSpeedFixed (mgr s) /\
  (forall speeds : list Z,
     _clockSpeed (mgr (setClock_all speeds s)) <= _clockSpeed (mgr s)) /\
  (_clockSpeed (mgr (forceClock r s)) = r /\
   _clockSpeedFixed (mgr (forceClock r s)) = true) /\
  (forall speeds : list Z,
     _clockSpeed (mgr (setClock_all speeds (forceClock r s))) = r /\
     _clockSpeedFixed (mgr (setClock_all speeds (forceClock r s))) = true) /\
  (_clockSpeed (mgr (setClock 9000 (setClock 5000 s))) =
     _clockSpeed (mgr (setClock 5000 s)) /\
   _clockSpeed (mgr (setClock 9000 (setClock 5000 s))) =
     if (5000 <? _clockSpeed (mgr s)) && negb (_clockSpeedFixed (mgr s))
     then 5000 else _clockSpeed (mgr s)) /\
  _clockSpeed (mgr (setClock 100 (forceClock 9000 s))) = 9000 /\
  _clockSpeed (mgr (setClock 100 (forceClock 9000
                      (setClock 9000 (setClock 5000 s))))) = 9000.
Proof.
  split; [ apply setClock_clockSpeed | ].
  split.
  { rewrite setClock_clockSpeed.
    destruct (Z.ltb_spec r (_clockSpeed (mgr s)));
      destruct (_clockSpeedFixed (mgr s)); simpl; auto. }
  split; [ apply setClock_never_raises | ].
  split; [ apply setClock_clockSpeedFixed | ].
  split; [ intros speeds; apply setClock_all_never_raises | ].
  split; [ split; reflexivity | ].
  split.
  { intros speeds.
    destruct (@setClock_all_fixed speeds (forceClock r s) eq_refl) as [Hc Hf].
    rewrite Hc, Hf. split; reflexivity. }
  assert (H59 : _clockSpeed (mgr (setClock 9000 (setClock 5000 s))) =
                _clockSpeed (mgr (setClock 5000 s))).
  { rewrite (setClock_clockSpeed 9000), setClock_clockSpeedFixed.
    rewrite (setClock_clockSpeed 5000).
    destruct (Z.ltb_spec 5000 (_clockSpeed (mgr s)));
      destruct (_clockSpeedFixed (mgr s)); simpl; try reflexivity;
      destruct (Z.ltb_spec 9000 (_clockSpeed (mgr s))); try reflexivity; lia. }
  split.
  { split; [ exact H59 | ]. rewrite H59. apply setClock_clockSpeed. }
  split; rewrite setClock_clockSpeed;
    cbn [forceClock _setClock DIAG log with_hw with_mgr set_clockSpeed
         set_clockSpeedFixed mgr _clockSpeed _clockSpeedFixed negb];
    rewrite andb_false_r; reflexivity.
Qed.

End ClockSpeed.

(* ================================================================= *)
(** ** Waiting and polling *)

Section Waiting.
Context {h : I2CManager_h} {be : Backend}.

Lemma loop_frame (s : State) :
  mgr (loop s) = mgr s /\ rsp (loop s) = rsp s /\ bsp (loop s) = bsp s /\
  trace (loop s) = trace s ++ [EvLoop (timeout (mgr s))] /\
  (mem (loop s), hw (loop s)) = loop_hw (timeout (mgr s)) (mem s, hw s).
Proof.
  unfold loop. destruct (loop_hw (timeout (mgr s)) (mem s, hw s)) as [m' b'].
  repeat split.
Qed.

Lemma loops_frame (k : nat) (s : State) :
  mgr (loops k s) = mgr s /\ rsp (loops k s) = rsp s /\ bsp (loops k s) = bsp s /\
  trace (loops k s) = trace s ++ repeat (EvLoop (timeout (mgr s))) k /\
  (mem (loops k s), hw (loops k s)) = loops_hw k (timeout (mgr s)) (mem s, hw s).
Proof.
  revert s. induction k as [ | k IH ]; intros s; simpl.
  - rewrite app_nil_r. repeat split.
  - destruct (IH (loop s)) as (Hm & Hr & Hb & Ht & Hw).
    destruct (loop_frame s) as (Hm1 & Hr1 & Hb1 & Ht1 & Hw1).
    rewrite Hm, Hr, Hb, Ht, Hw, Hm1, Hr1, Hb1, Ht1, Hw1, <- app_assoc.
    repeat split.
Qed.

Lemma queueRequest_frame (req : ptr) (s : State) :
  mgr (queueRequest req s) = mgr s /\ rsp (queueRequest req s) = rsp s /\
  bsp (queueRequest req s) = bsp s /\
  trace (queueRequest req s) =
    trace s ++ [EvQueueRequest (timeout (mgr s)) (blocks (mem s) req)] /\
  (mem (queueRequest req s), hw (queueRequest req s)) =
    queueRequest_hw (timeout (mgr s)) req (mem s, hw s).
Proof.
  unfold queueRequest.
  destruct (queueRequest_hw (timeout (mgr s)) req (mem s, hw s)) as [m' b'].
  repeat split.
Qed.

Lemma wait_not_pending (fuel : nat) (this : ptr) (s : State) :
  status_of this s <> I2C_STATUS_PENDING ->
  wait fuel this s = Some (status_of this s, s).
Proof.
  intros Hs. destruct fuel; simpl;
    destruct (Z.eqb_spec (status_of this s) I2C_STATUS_PENDING); congruence.
Qed.

Lemma wait_pending (fuel : nat) (this : ptr) (s : State) :
  status_of this s = I2C_STATUS_PENDING ->
  wait (S fuel) this s = wait fuel this (loop s).
Proof.
  intros Hs. simpl.
  destruct (Z.eqb_spec (status_of this s) I2C_STATUS_PENDING); congruence.
Qed.

(** With enough fuel [wait] returns after the first scheduler step that
    leaves the block resolved. *)
Lemma wait_after (k0 : nat) :
  forall (fuel : nat) (this : ptr) (s : State),
    (k0 <= fuel)%nat ->
    status_of this (loops k0 s) <> I2C_STATUS_PENDING ->
    exists k, (k <= k0)%nat /\
      wait fuel this s = Some (status_of this (loops k s), loops k s) /\
      status_of this (loops k s) <> I2C_STATUS_PENDING /\
      (forall j, (j < k)%nat -> status_of this (loops j s) = I2C_STATUS_PENDING).
Proof.
  induction k0 as [ | k0 IH ]; intros fuel this s Hfuel Hres.
  - exists 0%nat. simpl in *. split; [ lia | ].
    split; [ apply wait_not_pending; exact Hres | ].
    split; [ exact Hres | intros j Hj; lia ].
  - destruct (Z.eq_dec (status_of this s) I2C_STATUS_PENDING) as [Hp | Hnp].
    + destruct fuel as [ | fuel ]; [ lia | ].
      destruct (IH fuel this (loop s)) as (k & Hk & Hw & Hst & Hbefore);
        [ lia | exact Hres | ].
      exists (S k). simpl. split; [ lia | ].
      split; [ rewrite <- Hw; apply wait_pending; exact Hp | ].
      split; [ exact Hst | ].
      intros [ | j ] Hj; simpl; [ exact Hp | apply Hbefore; lia ].
    + exists 0%nat. simpl. split; [ lia | ].
      split; [ apply wait_not_pending; exact Hnp | ].
      split; [ exact Hnp | intros j Hj; lia ].
Qed.

Lemma wait_resolves (N fuel : nat) (this : ptr) (s : State) :
  resolves_within N this (timeout (mgr s)) (mem s, hw s) ->
  (N <= fuel)%nat ->
  exists k, (k <= N)%nat /\
    wait fuel this s = Some (status_of this (loops k s), loops k s) /\
    status_of this (loops k s) <> I2C_STATUS_PENDING /\
    (forall j, (j < k)%nat -> status_of this (loops j s) = I2C_STATUS_PENDING).
Proof.
  intros (k0 & Hk0 & Hres) Hfuel.
  destruct (loops_frame k0 s) as (_ & _ & _ & _ & Hw).
  rewrite <- Hw in Hres. simpl in Hres.
  destruct (@wait_after k0 fuel this s) as (k & Hk & Hrest); [ lia | exact Hres | ].
  exists k. split; [ lia | exact Hrest ].
Qed.

(** C2, as amended.  [isBusy()] returns true exactly when the block is
    PENDING at the time of the call; in that case, and only in that case,
    it performs one scheduler advancement step ([loop()]) before
    returning, and otherwise it leaves the state untouched. *)
Theorem isBusy_steps_only_when_pending (this : ptr) (s : State) :
  fst (isBusy this s) = (status_of this s =? I2C_STATUS_PENDING) /\
  (fst (isBusy this s) = true <-> status_of this s = I2C_STATUS_PENDING) /\
  snd (isBusy this s) =
    (if status_of this s =? I2C_STATUS_PENDING then loop s else s) /\
  loop_steps (trace (snd (isBusy this s))) =
    Nat.add (loop_steps (trace s))
            (if status_of this s =? I2C_STATUS_PENDING then 1%nat else 0%nat).
Proof.
  unfold isBusy.
  destruct (Z.eqb_spec (status_of this s) I2C_STATUS_PENDING) as [Hp | Hnp]; simpl.
  - split; [ reflexivity | ]. split; [ tauto | ]. split; [ reflexivity | ].
    destruct (loop_frame s) as (_ & _ & _ & Ht & _). rewrite Ht.
    unfold loop_steps, loop_events. rewrite flat_map_app, length_app. reflexivity.
  - split; [ reflexivity | ]. split; [ split; [ discriminate | tauto ] | ].
    split; [ reflexivity | lia ].
Qed.

End Waiting.

(* ================================================================= *)
(** ** Probing an address *)

Section Probing.
Context {h : I2CManager_h} {be : Backend}.

Lemma probe_block_is_probe (slot : I2CRB) (address : Z) :
  is_probe_block address
    (suppressRetries (setWriteParams (I2CRB_ctor slot) address NULL 0) true).
Proof. repeat split. Qed.

(** The operation code of a probe block, with the modifier masked off. *)
Lemma probe_operation_kind :
  is_uint8 OPERATION_SEND ->
  Z.land OPERATION_SEND OPERATION_NORETRY = 0 ->
  Z.land (to_uint8 (Z.lor OPERATION_SEND OPERATION_NORETRY))
         (Z.lnot OPERATION_NORETRY) = OPERATION_SEND.
Proof.
  intros Hs Hdisj. apply Z.bits_inj'. intros i Hi.
  rewrite Z.land_spec, Z.lnot_spec, to_uint8_testbit, Z.lor_spec by exact Hi.
  assert (Hb : Z.testbit (Z.land OPERATION_SEND OPERATION_NORETRY) i = false)
    by (rewrite Hdisj; apply Z.bits_0).
  rewrite Z.land_spec in Hb.
  destruct (Z.ltb_spec i 8) as [Hlt | Hge]; simpl.
  - destruct (Z.testbit OPERATION_SEND i), (Z.testbit OPERATION_NORETRY i);
      simpl in *; congruence.
  - symmetry. apply uint8_high_bit; assumption.
Qed.

(** One run of [checkAddress] under the driver's contract. *)
Lemma checkAddress_run (N fuel : nat) (address : Z) (s : State) :
  queue_resolves N -> (N <= fuel)%nat ->
  exists (s_p : State) (k : nat),
    let rb := rsp s in
    let blk := suppressRetries
                 (setWriteParams (I2CRB_ctor (blocks (mem s) rb)) address NULL 0)
                 true in
    let s_w := loops k (queueRequest rb s_p) in
    blocks (mem s_p) rb = blk /\ mgr s_p = mgr s /\ trace s_p = trace s /\
    (k <= N)%nat /\
    wait fuel rb (queueRequest rb s_p) = Some (status_of rb s_w, s_w) /\
    checkAddress fuel address s = Some (status_of rb s_w, delete_I2CRB s_w) /\
    status_of rb s_w <> I2C_STATUS_PENDING /\
    mgr s_w = mgr s /\ rsp (delete_I2CRB s_w) = rsp s /\ bsp s_w = bsp s /\
    trace s_w = trace s ++ EvQueueRequest (timeout (mgr s)) blk
                             :: repeat (EvLoop (timeout (mgr s))) k.
Proof.
  intros Hq Hfuel.
  set (rb := rsp s).
  set (s_p := on_block rb (fun this => suppressRetries this true)
                (on_block rb (fun this => setWriteParams this address NULL 0)
                   (with_rsp (S rb)
                      (with_mem (store_block rb (I2CRB_ctor (blocks (mem s) rb))
                                   (mem s)) s)))).
  assert (Hblk : blocks (mem s_p) rb =
                 suppressRetries
                   (setWriteParams (I2CRB_ctor (blocks (mem s) rb)) address NULL 0)
                   true).
  { subst s_p. cbn [on_block with_mem with_rsp mem blocks store_block].
    rewrite !Nat.eqb_refl. reflexivity. }
  destruct (queueRequest_frame rb s_p) as (Hm & Hr & Hb & Ht & Hw).
  assert (Hres : resolves_within N rb (timeout (mgr (queueRequest rb s_p)))
                   (mem (queueRequest rb s_p), hw (queueRequest rb s_p))).
  { rewrite Hw, Hm. apply Hq. }
  destruct (@wait_resolves _ _ N fuel rb _ Hres Hfuel) as (k & Hk & Hwait & Hst & _).
  destruct (loops_frame k (queueRequest rb s_p)) as (Hm2 & Hr2 & Hb2 & Ht2 & _).
  exists s_p, k. cbv zeta. fold rb.
  split; [ exact Hblk | ].
  split; [ reflexivity | ].
  split; [ reflexivity | ].
  split; [ exact Hk | ].
  split; [ exact Hwait | ].
  split.
  { change (checkAddress fuel address s)
      with (match wait fuel rb (queueRequest rb s_p) with
            | Some (r, s') => Some (r, delete_I2CRB s')
            | None => None
            end).
    rewrite Hwait. reflexivity. }
  split; [ exact Hst | ].
  split; [ rewrite Hm2, Hm; reflexivity | ].
  split; [ cbn [delete_I2CRB with_rsp rsp]; rewrite Hr2, Hr; reflexivity | ].
  split; [ rewrite Hb2, Hb; reflexivity | ].
  rewrite Ht2, Ht, Hm, Hblk, <- app_assoc. reflexivity.
Qed.

(** C7.  [checkAddress(address)] hands to [queueRequest] a request block
    that is a zero-length write to [address] (operation SEND, write
    length 0, null write buffer) with the no-retry modifier set, and
    nothing else; it then returns what [wait()] returns on that block,
    a status other than PENDING.  The driver is assumed to resolve a
    queued request within [N] scheduler steps, and [fuel] to cover them. *)
Theorem checkAddress_zero_length_probe (N fuel : nat) (address : Z) (s : State) :
  queue_resolves N -> (N <= fuel)%nat ->
  is_uint8 OPERATION_SEND -> is_uint8 OPERATION_NORETRY ->
  Z.land OPERATION_SEND OPERATION_NORETRY = 0 ->
  exists (blk : I2CRB) (s_p : State) (k : nat) (st : Z) (s_w : State),
    blocks (mem s_p) (rsp s) = blk /\
    (i2cAddress blk = address /\ writeLen blk = 0 /\ writeBuffer blk = NULL /\
     status blk = I2C_STATUS_OK /\
     Z.land (operation blk) (Z.lnot OPERATION_NORETRY) = OPERATION_SEND /\
     Z.land (operation blk) OPERATION_NORETRY = OPERATION_NORETRY) /\
    wait fuel (rsp s) (queueRequest (rsp s) s_p) = Some (st, s_w) /\
    checkAddress fuel address s = Some (st, delete_I2CRB s_w) /\
    st = status_of (rsp s) s_w /\ st <> I2C_STATUS_PENDING /\
    trace s_w = trace s ++ EvQueueRequest (timeout (mgr s)) blk
                             :: repeat (EvLoop (timeout (mgr s))) k /\
    probes (trace s_w) = probes (trace s) ++ [(timeout (mgr s), blk)].
Proof.
  intros Hq Hfuel Hs Hn Hdisj.
  destruct (checkAddress_run address s Hq Hfuel)
    as (s_p & k & Hblk & _ & _ & _ & Hwait & Hrun & Hst & _ & _ & _ & Htr).
  eexists _, s_p, k, _, _.
  split; [ exact Hblk | ].
  split.
  { cbn [i2cAddress writeLen writeBuffer status operation suppressRetries
         setWriteParams set_operation].
    split; [ reflexivity | ]. split; [ reflexivity | ]. split; [ reflexivity | ].
    split; [ reflexivity | ].
    split; [ apply probe_operation_kind; assumption | ].
    exact (noretry_set (setWriteParams (I2CRB_ctor (blocks (mem s) (rsp s)))
                          address NULL 0) Hn). }
  split; [ exact Hwait | ].
  split; [ exact Hrun | ].
  split; [ reflexivity | ].
  split; [ exact Hst | ].
  split; [ exact Htr | ].
  rewrite Htr. unfold probes. rewrite flat_map_app. cbn [flat_map app].
  replace (flat_map _ (repeat (EvLoop (timeout (mgr s))) k)) with (@nil (Z * I2CRB)).
  - reflexivity.
  - clear. induction k as [ | k IH ]; simpl; [ reflexivity | exact IH ].
Qed.

End Probing.

(* ================================================================= *)
(** ** Blocking convenience calls *)

Section Blocking.
Context {h : I2CManager_h} {be : Backend}.

Lemma submit_frame (sub : Submission) (req : ptr) (s : State) :
  exists s1,
    submit sub req s =
      Some (fst (submit_hw sub (timeout (mgr s)) req (mem s, hw s)), s1) /\
    mgr s1 = mgr s /\ rsp s1 = rsp s /\ bsp s1 = bsp s /\
    trace s1 = trace s ++ [EvSubmit (timeout (mgr s)) sub] /\
    (mem s1, hw s1) = snd (submit_hw sub (timeout (mgr s)) req (mem s, hw s)).
Proof.
  unfold submit.
  destruct (submit_hw sub (timeout (mgr s)) req (mem s, hw s)) as [st [m' b']].
  eexists. repeat split.
Qed.

(** The common body of [write], [write_P] and [read]. *)
Lemma blocking_run (N fuel : nat) (sub : Submission) (s : State) :
  submit_resolves N -> reject_not_pending -> (N <= fuel)%nat ->
  blocking_outcome sub s
    (bind new_I2CRB (fun req =>
       bind (submit sub req) (fun status_ =>
         bind (finishRB fuel (Some req) status_) (fun r =>
           bind (call delete_I2CRB) (fun _ => ret r)))) s).
Proof.
  intros Hacc Hrej Hfuel. unfold blocking_outcome.
  cbv beta delta [bind new_I2CRB call ret]. cbv beta iota zeta.
  set (s0 := with_rsp (S (rsp s)) _).
  destruct (submit_frame sub (rsp s) s0) as (s1 & Hsub & Hm & Hr & Hb & Ht & Hw).
  rewrite Hsub. cbv beta iota.
  set (st := fst (submit_hw sub (timeout (mgr s0)) (rsp s) (mem s0, hw s0))) in *.
  exists s0, st, s1.
  split; [ reflexivity | ].
  split; [ subst s0; unfold status_of;
           cbn [with_rsp with_mem mem blocks store_block];
           rewrite Nat.eqb_refl; reflexivity | ].
  split; [ exact Hsub | ].
  split; [ exact Ht | ].
  unfold finishRB. split.
  - intros Hok.
    assert (Hres : resolves_within N (rsp s) (timeout (mgr s1)) (mem s1, hw s1)).
    { rewrite Hw, Hm. apply Hacc. exact Hok. }
    destruct (@wait_resolves _ _ N fuel (rsp s) _ Hres Hfuel)
      as (k & Hk & Hwait & Hst & Hbefore).
    destruct (loops_frame k s1) as (_ & _ & _ & Htr & _).
    exists k. rewrite Hok, Z.eqb_refl, Hwait.
    split; [ reflexivity | ]. split; [ exact Hst | ].
    split; [ rewrite Htr, Hm; reflexivity | exact Hbefore ].
  - intros Hnok. destruct (Z.eqb_spec st I2C_STATUS_OK) as [Heq | _];
      [ contradiction | ].
    split; [ reflexivity | ].
    unfold status_of.
    change (mem s1) with (fst (mem s1, hw s1)). rewrite Hw.
    apply Hrej. exact Hnok.
Qed.

(** Copying [n] variadic arguments into a local buffer touches the bytes
    of the buffer only and leaves the arguments there, each converted to
    [uint8_t]. *)
Lemma va_copy_frame (k : nat) :
  forall (i n : Z) (buffer : bufptr) (args : list Z) (s : State),
    0 <= i <= n -> n < 256 ->
    (Z.to_nat (n - i) < k)%nat ->
    (Z.to_nat (n - i) <= List.length args)%nat ->
    exists s',
      va_copy k i n buffer args s = Some (tt, s') /\
      mgr s' = mgr s /\ rsp s' = rsp s /\ bsp s' = bsp s /\ hw s' = hw s /\
      trace s' = trace s /\ blocks (mem s') = blocks (mem s) /\
      (forall j, i <= j < n ->
         bytes (mem s') (buffer + j) = to_uint8 (nth (Z.to_nat (j - i)) args 0)) /\
      (forall a, ~ (buffer + i <= a < buffer + n) ->
         bytes (mem s') a = bytes (mem s) a).
Proof.
  induction k as [ | k IH ]; intros i n buffer args s Hi Hn Hk Hargs; [ lia | ].
  simpl. destruct (Z.ltb_spec i n) as [Hlt | Hge].
  - destruct args as [ | a0 rest ]; [ simpl in Hargs; lia | ].
    assert (Hnext : to_uint8 (i + 1) = i + 1)
      by (apply to_uint8_id; unfold is_uint8; lia).
    rewrite Hnext. unfold bind, call.
    match goal with
    | |- context [va_copy k (i + 1) n buffer rest ?s1] =>
        destruct (IH (i + 1) n buffer rest s1)
          as (s' & Hrun & Hm & Hr & Hb & Hh & Ht & Hblk & Hin & Hout);
          [ lia | lia | lia | simpl in Hargs; lia | ]
    end.
    exists s'. split; [ exact Hrun | ].
    split; [ exact Hm | ]. split; [ exact Hr | ]. split; [ exact Hb | ].
    split; [ exact Hh | ]. split; [ exact Ht | ]. split; [ exact Hblk | ].
    split.
    + intros j Hj. destruct (Z.eq_dec j i) as [-> | Hne].
      * rewrite Hout by lia.
        cbn [with_mem mem store_byte bytes]. rewrite Z.eqb_refl.
        rewrite Z.sub_diag. reflexivity.
      * rewrite Hin by lia.
        replace (Z.to_nat (j - i)) with (S (Z.to_nat (j - (i + 1)))) by lia.
        reflexivity.
    + intros a Ha. rewrite Hout by lia.
      cbn [with_mem mem store_byte bytes].
      destruct (Z.eqb_spec a (buffer + i)) as [Heq | _]; [ lia | reflexivity ].
  - exists s. repeat split; intros; lia.
Qed.

(** C8.  [write], [write_P], [read] and the two overloads taking the
    bytes inline each construct a transient request block (status OK),
    submit it, and finish through [finishRB]: when the submission is
    accepted (status OK) they wait and return the terminal status of the
    block, which is not PENDING; when the submission is rejected they
    return the rejection status at once, no scheduler step is taken, and
    the block is not PENDING.  The overloads taking the bytes inline
    first copy them to a local buffer and then behave as the call on
    that buffer.  The driver is assumed to resolve an accepted submission
    within [N] scheduler steps and not to leave a rejected block
    PENDING. *)
Theorem blocking_calls_wait_or_reject (N fuel : nat) (s : State)
    (address : Z) (wbuf : bufptr) (wlen : Z) (rbuf : bufptr) (rlen : Z)
    (nBytes : Z) (args : list Z) :
  submit_resolves N -> reject_not_pending -> (N <= fuel)%nat ->
  is_uint8 nBytes -> (Z.to_nat nBytes <= List.length args)%nat ->
  blocking_outcome (SubWrite address wbuf wlen) s (write fuel address wbuf wlen s) /\
  blocking_outcome (SubWriteP address wbuf wlen) s (write_P fuel address wbuf wlen s) /\
  blocking_outcome (SubRead address rbuf rlen wbuf wlen) s
    (read fuel address rbuf rlen wbuf wlen s) /\
  (exists s_in,
     va_copy 257 0 nBytes (bsp s) args (with_bsp (bsp s + nBytes) s) = Some (tt, s_in) /\
     mgr s_in = mgr s /\ rsp s_in = rsp s /\ trace s_in = trace s /\
     blocks (mem s_in) = blocks (mem s) /\
     (forall j, 0 <= j < nBytes ->
        bytes (mem s_in) (bsp s + j) = to_uint8 (nth (Z.to_nat j) args 0)) /\
     blocking_outcome (SubWrite address (bsp s) nBytes) s_in
       (write fuel address (bsp s) nBytes s_in) /\
     write_va fuel address nBytes args s =
       match write fuel address (bsp s) nBytes s_in with
       | Some (r, s') => Some (r, freea nBytes s')
       | None => None
       end) /\
  (exists s_in,
     va_copy 257 0 nBytes (bsp s) args (with_bsp (bsp s + nBytes) s) = Some (tt, s_in) /\
     mgr s_in = mgr s /\ rsp s_in = rsp s /\ trace s_in = trace s /\
     blocks (mem s_in) = blocks (mem s) /\
     (forall j, 0 <= j < nBytes ->
        bytes (mem s_in) (bsp s + j) = to_uint8 (nth (Z.to_nat j) args 0)) /\
     blocking_outcome (SubRead address rbuf rlen (bsp s) nBytes) s_in
       (read fuel address rbuf rlen (bsp s) nBytes s_in) /\
     read_va fuel address rbuf rlen nBytes args s =
       match read fuel address rbuf rlen (bsp s) nBytes s_in with
       | Some (r, s') => Some (r, freea nBytes s')
       | None => None
       end).
Proof.
  intros Hacc Hrej Hfuel Hn Hargs.
  split; [ exact (blocking_run (SubWrite address wbuf wlen) s Hacc Hrej Hfuel) | ].
  split; [ exact (blocking_run (SubWriteP address wbuf wlen) s Hacc Hrej Hfuel) | ].
  split; [ exact (blocking_run (SubRead address rbuf rlen wbuf wlen) s
                    Hacc Hrej Hfuel) | ].
  destruct (@va_copy_frame 257 0 nBytes (bsp s) args (with_bsp (bsp s + nBytes) s))
    as (s_in & Hcopy & Hm & Hr & _ & _ & Ht & Hblk & Hin & _);
    [ unfold is_uint8 in Hn; lia | unfold is_uint8 in Hn; lia
    | unfold is_uint8 in Hn; rewrite Z.sub_0_r; lia
    | rewrite Z.sub_0_r; exact Hargs | ].
  split.
  - exists s_in.
    split; [ exact Hcopy | ]. split; [ exact Hm | ]. split; [ exact Hr | ].
    split; [ exact Ht | ]. split; [ exact Hblk | ].
    split; [ intros j Hj; rewrite Hin by exact Hj; rewrite Z.sub_0_r; reflexivity | ].
    split; [ exact (blocking_run (SubWrite address (bsp s) nBytes) s_in
                      Hacc Hrej Hfuel) | ].
    unfold write_va, bind, alloca. rewrite Hcopy.
    destruct (write fuel address (bsp s) nBytes s_in) as [ [r s'] | ]; reflexivity.
  - exists s_in.
    split; [ exact Hcopy | ]. split; [ exact Hm | ]. split; [ exact Hr | ].
    split; [ exact Ht | ]. split; [ exact Hblk | ].
    split; [ intros j Hj; rewrite Hin by exact Hj; rewrite Z.sub_0_r; reflexivity | ].
    split; [ exact (blocking_run (SubRead address rbuf rlen (bsp s) nBytes) s_in
                      Hacc Hrej Hfuel) | ].
    unfold read_va, bind, alloca. rewrite Hcopy.
    destruct (read fuel address rbuf rlen (bsp s) nBytes s_in) as [ [r s'] | ];
      reflexivity.
Qed.

End Blocking.

(* ================================================================= *)
(** ** Initialisation and the start-up scan *)

Lemma flat_map_repeat_nil (A C : Type) (f : A -> list C) (e : A) (k : nat) :
  f e = [] -> flat_map f (repeat e k) = [].
Proof.
  intros He. induction k as [ | k IH ]; simpl; [ reflexivity | ].
  rewrite He, IH. reflexivity.
Qed.

Lemma flat_map_repeat_one (A C : Type) (f : A -> list C) (e : A) (c : C) (k : nat) :
  f e = [c] -> flat_map f (repeat e k) = repeat c k.
Proof.
  intros He. induction k as [ | k IH ]; simpl; [ reflexivity | ].
  rewrite He, IH. reflexivity.
Qed.

Lemma addresses_from_end : addresses_from 127 = [].
Proof. reflexivity. Qed.

Lemma addresses_from_step (a : Z) :
  0 <= a < 127 -> addresses_from a = a :: addresses_from (a + 1).
Proof.
  intros Ha. unfold addresses_from.
  replace (Z.to_nat (127 - a)) with (S (Z.to_nat (127 - (a + 1)))) by lia.
  replace (Z.to_nat (a + 1)) with (S (Z.to_nat a)) by lia.
  cbn [seq map]. rewrite Z2Nat.id by lia. reflexivity.
Qed.

Lemma addresses_from_1 : addresses_from 1 = map Z.of_nat (seq 1 126).
Proof. reflexivity. Qed.

Section Scan.
Context {h : I2CManager_h} {be : Backend}.

Lemma scan_trace_end (tmo : Z) : scan_trace tmo 127 [].
Proof.
  unfold scan_trace, probe_addresses. cbn.
  repeat split; constructor.
Qed.

(** The events of one pass of the loop body, followed by the rest of the
    scan. *)
Lemma scan_trace_step (tmo a : Z) (blk : I2CRB) (k : nat)
    (dg rest : list Event) :
  0 <= a < 127 ->
  is_probe_block a blk ->
  dg = [] \/ (exists fmt args, dg = [EvDiag fmt args]) ->
  scan_trace tmo (a + 1) rest ->
  scan_trace tmo a
    ((EvQueueRequest tmo blk :: repeat (EvLoop tmo) k) ++ dg ++ rest).
Proof.
  intros Ha Hblk Hdg (Hpa & Hpr & Hlo & Hck & Hlc & Hin & Hsu).
  assert (Hp : probes ((EvQueueRequest tmo blk :: repeat (EvLoop tmo) k) ++ dg ++ rest)
               = (tmo, blk) :: probes rest).
  { unfold probes. rewrite !flat_map_app. cbn [flat_map app].
    rewrite flat_map_repeat_nil by reflexivity.
    destruct Hdg as [-> | (fmt & args & ->)]; reflexivity. }
  unfold scan_trace, probe_addresses. rewrite Hp.
  split.
  { cbn [map snd]. rewrite addresses_from_step by exact Ha.
    destruct Hblk as (-> & _). f_equal. exact Hpa. }
  split.
  { constructor; [ | exact Hpr ]. cbn [fst snd].
    split; [ reflexivity | ].
    destruct Hblk as (Haddr & Hrest).
    split; [ reflexivity | exact Hrest ]. }
  split.
  { unfold loop_events. rewrite !flat_map_app. cbn [flat_map app].
    rewrite (@flat_map_repeat_one _ _ _ (EvLoop tmo) tmo k) by reflexivity.
    apply Forall_app. split.
    - apply Forall_forall. intros t Ht. exact (repeat_spec _ _ _ Ht).
    - destruct Hdg as [-> | (fmt & args & ->)]; exact Hlo. }
  split.
  { unfold clock_calls. rewrite !flat_map_app. cbn [flat_map app].
    rewrite flat_map_repeat_nil by reflexivity.
    destruct Hdg as [-> | (fmt & args & ->)]; exact Hck. }
  split.
  { unfold line_checks. rewrite !flat_map_app. cbn [flat_map app].
    rewrite flat_map_repeat_nil by reflexivity.
    destruct Hdg as [-> | (fmt & args & ->)]; exact Hlc. }
  split.
  { unfold initialisations. rewrite !flat_map_app. cbn [flat_map app].
    rewrite flat_map_repeat_nil by reflexivity.
    destruct Hdg as [-> | (fmt & args & ->)]; exact Hin. }
  unfold submissions. rewrite !flat_map_app. cbn [flat_map app].
  rewrite flat_map_repeat_nil by reflexivity.
  destruct Hdg as [-> | (fmt & args & ->)]; exact Hsu.
Qed.

(** The [for] loop of [begin] from address [a] on. *)
Lemma scan_run (N fuel : nat) :
  queue_resolves N -> (N <= fuel)%nat ->
  forall (n : nat) (a : Z) (found : bool) (s : State),
    0 <= a <= 127 -> (Z.to_nat (127 - a) < n)%nat ->
    exists (found' : bool) (s' : State) (evs : list Event),
      scan n fuel a found s = Some (found', s') /\
      mgr s' = mgr s /\ rsp s' = rsp s /\ bsp s' = bsp s /\
      trace s' = trace s ++ evs /\
      scan_trace (timeout (mgr s)) a evs.
Proof.
  intros Hq Hfuel. induction n as [ | n IH ]; intros a found s Ha Hn; [ lia | ].
  cbn [scan]. destruct (Z.ltb_spec a 127) as [Hlt | Hge].
  - destruct (checkAddress_run a s Hq Hfuel)
      as (s_p & k & Hblk & _ & _ & _ & _ & Hrun & _ & Hm & Hr & Hb & Ht).
    cbv zeta in Hblk, Hrun, Hm, Hr, Hb, Ht.
    set (s_w := loops k (queueRequest (rsp s) s_p)) in *.
    set (blk := suppressRetries
                  (setWriteParams (I2CRB_ctor (blocks (mem s) (rsp s))) a NULL 0)
                  true) in *.
    assert (Hnext : to_uint8 (a + 1) = a + 1)
      by (apply to_uint8_id; unfold is_uint8; lia).
    unfold bind at 1. unfold exists_, bind at 1. rewrite Hrun.
    unfold ret at 1. rewrite Hnext.
    destruct (status_of (rsp s) s_w =? I2C_STATUS_OK).
    + unfold bind at 1. unfold bind at 1. unfold call at 1. unfold ret at 1.
      destruct (IH (a + 1) true
                  (DIAG "I2C Device found at x%x" [a] (delete_I2CRB s_w)))
        as (found' & s' & evs & Hscan & Hm' & Hr' & Hb' & Ht' & Hst');
        [ lia | lia | ].
      exists found', s',
        ((EvQueueRequest (timeout (mgr s)) blk :: repeat (EvLoop (timeout (mgr s))) k)
           ++ [EvDiag "I2C Device found at x%x" [a]] ++ evs).
      split; [ exact Hscan | ].
      split; [ rewrite Hm'; exact Hm | ].
      split; [ rewrite Hr'; exact Hr | ].
      split; [ rewrite Hb'; exact Hb | ].
      split.
      { rewrite Ht'. cbn [DIAG log trace delete_I2CRB with_rsp].
        rewrite Ht, <- !app_assoc. reflexivity. }
      apply scan_trace_step.
      * lia.
      * apply probe_block_is_probe.
      * right. eexists _, _. reflexivity.
      * change (timeout (mgr (DIAG "I2C Device found at x%x" [a] (delete_I2CRB s_w))))
          with (timeout (mgr s_w)) in Hst'.
        rewrite Hm in Hst'. exact Hst'.
    + unfold bind at 1. unfold ret at 1.
      destruct (IH (a + 1) found (delete_I2CRB s_w))
        as (found' & s' & evs & Hscan & Hm' & Hr' & Hb' & Ht' & Hst');
        [ lia | lia | ].
      exists found', s',
        ((EvQueueRequest (timeout (mgr s)) blk :: repeat (EvLoop (timeout (mgr s))) k)
           ++ [] ++ evs).
      split; [ exact Hscan | ].
      split; [ rewrite Hm'; exact Hm | ].
      split; [ rewrite Hr'; exact Hr | ].
      split; [ rewrite Hb'; exact Hb | ].
      split.
      { rewrite Ht'. cbn [trace delete_I2CRB with_rsp].
        rewrite Ht, <- !app_assoc. reflexivity. }
      apply scan_trace_step.
      * lia.
      * apply probe_block_is_probe.
      * left. reflexivity.
      * change (timeout (mgr (delete_I2CRB s_w))) with (timeout (mgr s_w)) in Hst'.
        rewrite Hm in Hst'. exact Hst'.
  - assert (a = 127) by lia. subst a.
    exists found, s, []. unfold ret.
    split; [ reflexivity | ]. split; [ reflexivity | ]. split; [ reflexivity | ].
    split; [ reflexivity | ]. split; [ rewrite app_nil_r; reflexivity | ].
    apply scan_trace_end.
Qed.

End Scan.

Section Begin.
Context {h : I2CManager_h} {be : Backend}.

(** The body of [begin] on a manager that has not begun, statement by
    statement. *)
Lemma begin_first (fuel : nat) (s : State) :
  _beginCompleted (mgr s) = false ->
  let s1 := _initialise (set_beginCompleted true s) in
  let sda := digitalRead_hw SDA (hw s1) in
  let s2 := log (EvDigitalRead SDA) s1 in
  let s3 := if sda =? 0
            then DIAG "WARNING: Possible short-circuit on I2C SDA line" [] s2
            else s2 in
  let scl := digitalRead_hw SCL (hw s3) in
  let s4 := log (EvDigitalRead SCL) s3 in
  let s5 := if scl =? 0
            then DIAG "WARNING: Possible short-circuit on I2C SCL line" [] s4
            else s4 in
  let s6 := _setClock 100000 s5 in
  let s7 := setTimeout 1000 s6 in
  begin fuel s =
    match scan 127 fuel 1 false s7 with
    | Some (found, s8) =>
        let s9 := if negb found then DIAG "No I2C Devices found" [] s8 else s8 in
        Some (tt, setTimeout (timeout (mgr s6)) (_setClock (_clockSpeed (mgr s9)) s9))
    | None => None
    end.
Proof.
  intros Hnb. cbv zeta. unfold begin. rewrite Hnb. cbn [negb].
  unfold bind, call, digitalRead, gets, when, ret.
  destruct (digitalRead_hw SDA (hw (_initialise (set_beginCompleted true s))) =? 0);
    match goal with
    | |- context [digitalRead_hw SCL ?b =? 0] => destruct (digitalRead_hw SCL b =? 0)
    end;
    match goal with
    | |- context [scan 127 fuel 1 false ?st] =>
        destruct (scan 127 fuel 1 false st) as [ [ [ | ] s8 ] | ]
    end; reflexivity.
Qed.

(** What the first [begin] does: the events before the scan ([pre]), the
    scan itself and the events after it ([post]). *)
Lemma begin_run (N fuel : nat) (s : State) :
  queue_resolves N -> (N <= fuel)%nat ->
  _beginCompleted (mgr s) = false ->
  exists (s1 : State) (pre scanevs post : list Event),
    begin fuel s = Some (tt, s1) /\
    mgr s1 = mkManager true (_clockSpeed (mgr s)) (_clockSpeedFixed (mgr s))
                       (timeout (mgr s)) /\
    rsp s1 = rsp s /\ bsp s1 = bsp s /\
    trace s1 = trace s ++ pre ++ EvSetClock 100000 :: scanevs ++ post /\
    (initialisations pre = 1%nat /\ line_checks pre = [SDA; SCL] /\
     probes pre = [] /\ clock_calls pre = [] /\ loop_events pre = [] /\
     submissions pre = []) /\
    scan_trace 1000 1 scanevs /\
    (initialisations post = 0%nat /\ line_checks post = [] /\
     probes post = [] /\ clock_calls post = [_clockSpeed (mgr s)] /\
     loop_events post = [] /\ submissions post = []).
Proof.
  intros Hq Hfuel Hnb. rewrite (begin_first fuel s Hnb). cbv zeta.
  set (s1 := _initialise (set_beginCompleted true s)).
  set (c1 := digitalRead_hw SDA (hw s1) =? 0).
  set (s3 := if c1 then DIAG _ [] (log (EvDigitalRead SDA) s1)
             else log (EvDigitalRead SDA) s1).
  set (c2 := digitalRead_hw SCL (hw s3) =? 0).
  set (s5 := if c2 then DIAG _ [] (log (EvDigitalRead SCL) s3)
             else log (EvDigitalRead SCL) s3).
  set (pre := EvInitialise :: EvDigitalRead SDA
                :: (if c1 then [EvDiag "WARNING: Possible short-circuit on I2C SDA line" []]
                    else [])
                ++ EvDigitalRead SCL
                :: (if c2 then [EvDiag "WARNING: Possible short-circuit on I2C SCL line" []]
                    else [])).
  assert (H5 : mgr s5 = mkManager true (_clockSpeed (mgr s)) (_clockSpeedFixed (mgr s))
                                  (timeout (mgr s)) /\
               rsp s5 = rsp s /\ bsp s5 = bsp s /\ trace s5 = trace s ++ pre).
  { subst s5 pre s3 s1. destruct c2, c1; cbn; rewrite <- ?app_assoc; repeat split. }
  destruct H5 as (Hm5 & Hr5 & Hb5 & Ht5).
  destruct (@scan_run _ _ N fuel Hq Hfuel 127%nat 1 false
              (setTimeout 1000 (_setClock 100000 s5)))
    as (found & s8 & evs & Hscan & Hm8 & Hr8 & Hb8 & Ht8 & Hst8);
    [ lia | cbn; lia | ].
  rewrite Hscan.
  cbn [setTimeout _setClock log with_hw with_mgr mgr rsp bsp trace timeout
       _clockSpeed _clockSpeedFixed _beginCompleted] in Hm8, Hr8, Hb8, Ht8, Hst8.
  rewrite Hm5 in Hm8. cbn [_clockSpeed _clockSpeedFixed _beginCompleted] in Hm8.
  eexists _, pre, evs,
    ((if negb found then [EvDiag "No I2C Devices found" []] else [])
       ++ [EvSetClock (_clockSpeed (mgr s))]).
  split; [ reflexivity | ].
  split.
  { destruct found; cbn; rewrite Hm8, Hm5; reflexivity. }
  split; [ destruct found; cbn; rewrite Hr8, Hr5; reflexivity | ].
  split; [ destruct found; cbn; rewrite Hb8, Hb5; reflexivity | ].
  split.
  { destruct found; cbn [negb DIAG log setTimeout _setClock with_hw with_mgr trace mgr];
      rewrite Ht8, Ht5, Hm8; cbn [_clockSpeed];
      rewrite <- !app_assoc; reflexivity. }
  split.
  { subst pre. destruct c1, c2; cbn; repeat split. }
  split; [ exact Hst8 | ].
  destruct found; cbn; repeat split.
Qed.

End Begin.

Section BeginTheorems.
Context {h : I2CManager_h} {be : Backend}.

Lemma begin_again (fuel : nat) (s : State) :
  _beginCompleted (mgr s) = true -> begin fuel s = Some (tt, s).
Proof. intros Hb. unfold begin. rewrite Hb. reflexivity. Qed.

Lemma begin_times_again (k fuel : nat) (s : State) :
  _beginCompleted (mgr s) = true -> begin_times k fuel s = Some (tt, s).
Proof.
  intros Hb. induction k as [ | k IH ]; simpl; [ reflexivity | ].
  unfold bind. rewrite (begin_again fuel s Hb). exact IH.
Qed.

(** C3.  On a manager that has not begun, the first [begin()] brings the
    driver up once, checks the two bus lines once (SDA, then SCL) and
    scans the addresses 1..126 once; it sets the completion flag, and any
    further [begin()] returns the state unchanged, trace included, so it
    performs no driver or diagnostic action.  Hence any run of one, two
    or more [begin()] calls ends in the state the first call produced.
    The driver is assumed to resolve a queued request within [N]
    scheduler steps, and [fuel] to cover them. *)
Theorem begin_is_one_time_initialisation (N fuel : nat) (s : State) :
  queue_resolves N -> (N <= fuel)%nat ->
  _beginCompleted (mgr s) = false ->
  exists (s1 : State) (evs : list Event),
    begin fuel s = Some (tt, s1) /\
    trace s1 = trace s ++ evs /\
    initialisations evs = 1%nat /\
    line_checks evs = [SDA; SCL] /\
    probe_addresses evs = map Z.of_nat (seq 1 126) /\
    _beginCompleted (mgr s1) = true /\
    (forall fuel' : nat, begin fuel' s1 = Some (tt, s1)) /\
    (forall k : nat, begin_times (S k) fuel s = Some (tt, s1)) /\
    (forall k : nat, begin_times (S (S k)) fuel s = Some (tt, s1)).
Proof.
  intros Hq Hfuel Hnb.
  destruct (begin_run s Hq Hfuel Hnb)
    as (s1 & pre & scanevs & post & Hrun & Hm & _ & _ & Ht & Hpre & Hscan & Hpost).
  destruct Hpre as (Hi1 & Hl1 & Hp1 & _).
  destruct Hscan as (Hpa & _ & _ & _ & Hl2 & Hi2 & _).
  destruct Hpost as (Hi3 & Hl3 & Hp3 & _).
  assert (Hdone : _beginCompleted (mgr s1) = true) by (rewrite Hm; reflexivity).
  assert (Hmany : forall k, begin_times (S k) fuel s = Some (tt, s1)).
  { intros k. cbn [begin_times]. unfold bind. rewrite Hrun.
    apply begin_times_again. exact Hdone. }
  exists s1, (pre ++ EvSetClock 100000 :: scanevs ++ post).
  split; [ exact Hrun | ]. split; [ exact Ht | ].
  split.
  { unfold initialisations in *.
    change (EvSetClock 100000 :: scanevs ++ post)
      with ([EvSetClock 100000] ++ scanevs ++ post).
    rewrite !flat_map_app, !length_app, Hi1, Hi2, Hi3. reflexivity. }
  split.
  { unfold line_checks in *.
    change (EvSetClock 100000 :: scanevs ++ post)
      with ([EvSetClock 100000] ++ scanevs ++ post).
    rewrite !flat_map_app, Hl1, Hl2, Hl3. reflexivity. }
  split.
  { unfold probe_addresses in *. unfold probes in *.
    change (EvSetClock 100000 :: scanevs ++ post)
      with ([EvSetClock 100000] ++ scanevs ++ post).
    rewrite !flat_map_app, Hp1, Hp3. cbn [flat_map app].
    rewrite app_nil_r. rewrite Hpa. apply addresses_from_1. }
  split; [ exact Hdone | ].
  split; [ intros fuel'; apply begin_again; exact Hdone | ].
  split; [ exact Hmany | intros k; apply Hmany ].
Qed.

(** C4.  The first [begin()] sets the bus clock to 100000 Hz, then hands
    to [queueRequest] one probe per address 1, 2, ..., 126, in this order
    and no other request; each probe is a zero-length write with the
    no-retry modifier set and is queued and waited for under a timeout of
    1000 us, and the bus clock is not touched during the scan.  After the
    scan the bus clock is set to the negotiated rate, and the manager's
    timeout and negotiated rate are what they were before [begin()]. *)
Theorem begin_scan_probes_and_restores (N fuel : nat) (s : State) :
  queue_resolves N -> (N <= fuel)%nat ->
  is_uint8 OPERATION_NORETRY ->
  _beginCompleted (mgr s) = false ->
  exists (s1 : State) (pre scanevs post : list Event),
    begin fuel s = Some (tt, s1) /\
    trace s1 = trace s ++ pre ++ EvSetClock 100000 :: scanevs ++ post /\
    (probes pre = [] /\ clock_calls pre = [] /\ probes post = []) /\
    probe_addresses scanevs = map Z.of_nat (seq 1 126) /\
    Forall (fun p =>
              fst p = 1000 /\
              operation (snd p) = to_uint8 (Z.lor OPERATION_SEND OPERATION_NORETRY) /\
              Z.land (operation (snd p)) OPERATION_NORETRY = OPERATION_NORETRY /\
              writeLen (snd p) = 0 /\ writeBuffer (snd p) = NULL /\
              status (snd p) = I2C_STATUS_OK)
           (probes scanevs) /\
    Forall (fun t => t = 1000) (loop_events scanevs) /\
    clock_calls scanevs = [] /\
    clock_calls post = [_clockSpeed (mgr s)] /\
    timeout (mgr s1) = timeout (mgr s) /\
    _clockSpeed (mgr s1) = _clockSpeed (mgr s) /\
    _clockSpeedFixed (mgr s1) = _clockSpeedFixed (mgr s).
Proof.
  intros Hq Hfuel Hn Hnb.
  destruct (begin_run s Hq Hfuel Hnb)
    as (s1 & pre & scanevs & post & Hrun & Hm & _ & _ & Ht & Hpre & Hscan & Hpost).
  destruct Hpre as (_ & _ & Hp1 & Hc1 & _).
  destruct Hscan as (Hpa & Hpr & Hlo & Hc2 & _).
  destruct Hpost as (_ & _ & Hp3 & Hc3 & _).
  exists s1, pre, scanevs, post.
  split; [ exact Hrun | ]. split; [ exact Ht | ].
  split; [ repeat split; assumption | ].
  split; [ rewrite Hpa; apply addresses_from_1 | ].
  split.
  { revert Hpr. apply Forall_impl.
    intros [tmo rb] (Htmo & _ & Hop & Hwl & Hwb & _ & Hst). cbn [fst snd] in *.
    split; [ exact Htmo | ]. split; [ exact Hop | ].
    split.
    { rewrite Hop.
      exact (noretry_set (setWriteParams rb 0 NULL 0) Hn). }
    split; [ exact Hwl | ]. split; [ exact Hwb | exact Hst ]. }
  split; [ exact Hlo | ]. split; [ exact Hc2 | ]. split; [ exact Hc3 | ].
  rewrite Hm. repeat split.
Qed.

End BeginTheorems.

(* ================================================================= *)
(** ** The code on concrete inputs *)

(** The one-slot driver honours the contracts. *)
Lemma nak_queue_resolves : @queue_resolves header_values nak_backend 1.
Proof.
  intros tmo p [m [q | ]]; unfold resolves_within.
  - exists 0%nat. split; [ lia | ]. cbn. rewrite Nat.eqb_refl. cbn. discriminate.
  - exists 1%nat. split; [ lia | ]. cbn. rewrite Nat.eqb_refl. cbn. discriminate.
Qed.

Lemma nak_submit_resolves : @submit_resolves header_values nak_backend 1.
Proof.
  intros sub tmo p [m [q | ]] Hok; unfold resolves_within.
  - cbn in Hok. discriminate.
  - exists 1%nat. split; [ lia | ]. cbn. rewrite Nat.eqb_refl. cbn. discriminate.
Qed.

Lemma nak_reject_not_pending : @reject_not_pending header_values nak_backend.
Proof.
  intros sub tmo p [m [q | ]] Hrej.
  - cbn. rewrite Nat.eqb_refl. cbn. discriminate.
  - cbn in Hrej. congruence.
Qed.

Lemma header_values_distinct : @distinct_case_labels header_values.
Proof.
  unfold distinct_case_labels, status_codes. cbn.
  repeat (constructor; [ cbn [In]; intuition discriminate | ]).
  constructor.
Qed.

(** C2, counterexample.  On the block of [idle_state] (status OK) a call
    of [isBusy()] takes no scheduler step, not one; on the block of
    [pending_state] (PENDING, active in the driver) the step completes
    the request with an address NAK and [isBusy()] still returns true,
    although the block is no longer PENDING after the step. *)
Lemma isBusy_not_one_step_nor_status_after :
  ~ (loop_steps (trace (snd (@isBusy header_values nak_backend 0%nat idle_state))) =
     S (loop_steps (trace idle_state))) /\
  ~ (fst (@isBusy header_values nak_backend 0%nat pending_state) = true <->
     status_of 0%nat (snd (@isBusy header_values nak_backend 0%nat pending_state)) =
       @I2C_STATUS_PENDING header_values).
Proof.
  split.
  - vm_compute. discriminate.
  - intros [Hif _]. specialize (Hif eq_refl). vm_compute in Hif. discriminate.
Qed.

(** C6, counterexample.  A block prepared by [setWriteParams] and
    [suppressRetries(true)] has operation 0x83; [suppressRetries(true)]
    followed by [suppressRetries(false)] leaves 0x03, not the original
    operation field. *)
Lemma suppress_unsuppress_not_identity :
  operation noretry_block = 131 /\
  operation (@suppressRetries header_values
               (@suppressRetries header_values noretry_block true) false) = 3 /\
  operation (@suppressRetries header_values
               (@suppressRetries header_values noretry_block true) false)
    <> operation noretry_block.
Proof.
  split; [ reflexivity | ]. split; [ reflexivity | ].
  vm_compute. discriminate.
Qed.

(** Witness of C6 on [noretry_block]. *)
Lemma suppressRetries_only_noretry_bit_witness :
  is_uint8 (operation noretry_block) /\
  is_uint8 (@OPERATION_NORETRY header_values) /\
  operation (@suppressRetries header_values
               (@suppressRetries header_values noretry_block true) false) =
    Z.land (operation noretry_block) (Z.lnot (@OPERATION_NORETRY header_values)).
Proof.
  assert (Ho : is_uint8 (operation noretry_block))
    by (change (0 <= 131 < 256); lia).
  assert (Hn : is_uint8 (@OPERATION_NORETRY header_values))
    by (change (0 <= 128 < 256); lia).
  split; [ exact Ho | ]. split; [ exact Hn | ].
  exact (proj1 (proj2 (proj2 (proj2 (proj2
           (@suppressRetries_only_noretry_bit header_values noretry_block true Ho Hn)))))).
Defined.

(** Witness of C9 on the header's values. *)
Lemma getErrorMessage_total_lookup_witness :
  @distinct_case_labels header_values /\
  @getErrorMessage header_values 5 = "Timeout"%string /\
  @getErrorMessage header_values 9 = "Error code not recognised"%string.
Proof.
  split; [ exact header_values_distinct | ].
  destruct (@getErrorMessage_total_lookup header_values header_values_distinct)
    as (_ & _ & Hdefault & _).
  split; [ reflexivity | ].
  apply Hdefault. cbn. intuition discriminate.
Defined.

(** Witness of C10 on the header's values. *)
Lemma setters_discard_noretry_witness :
  is_uint8 (@OPERATION_NORETRY header_values) /\
  operation (@setWriteParams header_values noretry_block 32 512 3) =
    @OPERATION_SEND header_values.
Proof.
  assert (Hn : is_uint8 (@OPERATION_NORETRY header_values))
    by (change (0 <= 128 < 256); lia).
  split; [ exact Hn | ].
  exact (proj1 (proj1
           (@setters_discard_noretry header_values
              (@setWriteParams header_values blank_block 32 512 3) 32 0 0 512 3
              Hn eq_refl eq_refl eq_refl))).
Defined.

(** Witness of C7: probing address 0x50 from [power_on]. *)
Lemma checkAddress_zero_length_probe_witness :
  @queue_resolves header_values nak_backend 1 /\
  exists st s', @checkAddress header_values nak_backend 3 80 power_on = Some (st, s') /\
                st <> @I2C_STATUS_PENDING header_values.
Proof.
  split; [ exact nak_queue_resolves | ].
  assert (Hle : (1 <= 3)%nat) by lia.
  assert (Hs : is_uint8 (@OPERATION_SEND header_values))
    by (change (0 <= 3 < 256); lia).
  assert (Hn : is_uint8 (@OPERATION_NORETRY header_values))
    by (change (0 <= 128 < 256); lia).
  destruct (@checkAddress_zero_length_probe header_values nak_backend 1 3 80 power_on
              nak_queue_resolves Hle Hs Hn eq_refl)
    as (blk & s_p & k & st & s_w & _ & _ & _ & Hrun & _ & Hst & _).
  exists st, (delete_I2CRB s_w). split; [ exact Hrun | exact Hst ].
Defined.

(** Witness of C8: a write of 3 bytes to 0x20 and a write of two inline
    bytes, from [power_on]. *)
Lemma blocking_calls_wait_or_reject_witness :
  @submit_resolves header_values nak_backend 1 /\
  @reject_not_pending header_values nak_backend /\
  is_uint8 2 /\
  @blocking_outcome header_values nak_backend (SubWrite 32 512 3) power_on
    (@write header_values nak_backend 3 32 512 3 power_on).
Proof.
  assert (Hle : (1 <= 3)%nat) by lia.
  assert (Hn : is_uint8 2) by (unfold is_uint8; lia).
  assert (Hargs : (Z.to_nat 2 <= List.length [300; 7])%nat) by (simpl; lia).
  split; [ exact nak_submit_resolves | ].
  split; [ exact nak_reject_not_pending | ].
  split; [ exact Hn | ].
  exact (proj1 (@blocking_calls_wait_or_reject header_values nak_backend 1 3 power_on
                  32 512 3 768 4 2 [300; 7]
                  nak_submit_resolves nak_reject_not_pending Hle Hn Hargs)).
Defined.

(** Witness of C3: [begin] from [power_on]. *)
Lemma begin_is_one_time_initialisation_witness :
  _beginCompleted (mgr power_on) = false /\
  exists s1, @begin header_values nak_backend 3 power_on = Some (tt, s1) /\
             @begin_times header_values nak_backend 2 3 power_on = Some (tt, s1).
Proof.
  split; [ reflexivity | ].
  assert (Hle : (1 <= 3)%nat) by lia.
  destruct (@begin_is_one_time_initialisation header_values nak_backend 1 3 power_on
              nak_queue_resolves Hle eq_refl)
    as (s1 & evs & Hrun & _ & _ & _ & _ & _ & _ & Hmany & _).
  exists s1. split; [ exact Hrun | exact (Hmany 1%nat) ].
Defined.

(** Witness of C4: [begin] from [power_on]. *)
Lemma begin_scan_probes_and_restores_witness :
  _beginCompleted (mgr power_on) = false /\
  exists s1, @begin header_values nak_backend 3 power_on = Some (tt, s1) /\
             timeout (mgr s1) = 100000 /\ _clockSpeed (mgr s1) = 400000.
Proof.
  split; [ reflexivity | ].
  assert (Hle : (1 <= 3)%nat) by lia.
  assert (Hn : is_uint8 (@OPERATION_NORETRY header_values))
    by (change (0 <= 128 < 256); lia).
  destruct (@begin_scan_probes_and_restores header_values nak_backend 1 3 power_on
              nak_queue_resolves Hle Hn eq_refl)
    as (s1 & pre & scanevs & post & Hrun & _ & _ & _ & _ & _ & _ & _ & Htmo & Hcs & _).
  exists s1. split; [ exact Hrun | ]. split; [ exact Htmo | exact Hcs ].
Defined.

(* ================================================================= *)
(** ** Further properties: waiting and polling *)

Section WaitingMore.
Context {h : I2CManager_h} {be : Backend}.

Lemma wait_returned (fuel : nat) :
  forall (this : ptr) (s : State) (st : Z) (s' : State),
    wait fuel this s = Some (st, s') ->
    exists k, (k <= fuel)%nat /\ s' = loops k s /\ st = status_of this s' /\
      st <> I2C_STATUS_PENDING /\
      (forall j, (j < k)%nat -> status_of this (loops j s) = I2C_STATUS_PENDING).
Proof.
  induction fuel as [ | fuel IH ]; intros this s st s' Hw.
  - simpl in Hw.
    destruct (Z.eqb_spec (status_of this s) I2C_STATUS_PENDING) as [Hp | Hnp];
      [ discriminate | ].
    injection Hw as <- <-. exists 0%nat. simpl.
    split; [ lia | ]. split; [ reflexivity | ]. split; [ reflexivity | ].
    split; [ exact Hnp | intros j Hj; lia ].
  - destruct (Z.eq_dec (status_of this s) I2C_STATUS_PENDING) as [Hp | Hnp].
    + rewrite (wait_pending fuel this s Hp) in Hw.
      destruct (IH this (loop s) st s' Hw) as (k & Hk & Hs' & Hst & Hnp & Hbefore).
      exists (S k). simpl. split; [ lia | ]. split; [ exact Hs' | ].
      split; [ exact Hst | ]. split; [ exact Hnp | ].
      intros [ | j ] Hj; simpl; [ exact Hp | apply Hbefore; lia ].
    + rewrite (wait_not_pending (S fuel) this s Hnp) in Hw.
      injection Hw as <- <-. exists 0%nat. simpl.
      split; [ lia | ]. split; [ reflexivity | ]. split; [ reflexivity | ].
      split; [ exact Hnp | intros j Hj; lia ].
Qed.

Lemma wait_starved (fuel : nat) :
  forall (this : ptr) (s : State),
    wait fuel this s = None ->
    forall k, (k <= fuel)%nat -> status_of this (loops k s) = I2C_STATUS_PENDING.
Proof.
  induction fuel as [ | fuel IH ]; intros this s Hw k Hk.
  - assert (k = 0%nat) by lia. subst k. simpl in *.
    destruct (Z.eqb_spec (status_of this s) I2C_STATUS_PENDING) as [Hp | Hnp];
      [ exact Hp | discriminate ].
  - destruct (Z.eq_dec (status_of this s) I2C_STATUS_PENDING) as [Hp | Hnp].
    + rewrite (wait_pending fuel this s Hp) in Hw.
      destruct k as [ | k ]; simpl; [ exact Hp | ].
      apply (IH this (loop s) Hw). lia.
    + rewrite (wait_not_pending (S fuel) this s Hnp) in Hw. discriminate.
Qed.

(** X1.  [wait()] returns exactly after the first scheduler step that
    leaves the block not PENDING: it returns status [st] in state [s']
    if and only if, for some [k] within the fuel, [s'] is the state
    after [k] calls of [loop()], [st] is the block's status there and is
    not PENDING, and the block was PENDING before each of these calls.
    It fails to return within the fuel if and only if the block is
    PENDING after 0, 1, ..., fuel calls of [loop()]. *)
Theorem wait_returns_first_resolved (fuel : nat) (this : ptr) (s : State) :
  (forall (st : Z) (s' : State),
     wait fuel this s = Some (st, s') <->
     exists k, (k <= fuel)%nat /\ s' = loops k s /\ st = status_of this s' /\
       st <> I2C_STATUS_PENDING /\
       (forall j, (j < k)%nat -> status_of this (loops j s) = I2C_STATUS_PENDING)) /\
  (wait fuel this s = None <->
   forall k, (k <= fuel)%nat -> status_of this (loops k s) = I2C_STATUS_PENDING).
Proof.
  split.
  - intros st s'. split; [ apply wait_returned | ].
    intros (k & Hk & -> & -> & Hnp & Hbefore).
    destruct (@wait_after _ _ k fuel this s Hk Hnp) as (k' & Hk' & Hw & Hnp' & Hbefore').
    assert (k' = k).
    { destruct (Nat.lt_trichotomy k' k) as [Hlt | [Heq | Hgt]]; [ | exact Heq | ].
      - exfalso. apply Hnp'. apply Hbefore. exact Hlt.
      - exfalso. apply Hnp. apply Hbefore'. exact Hgt. }
    subst k'. exact Hw.
  - split; [ apply wait_starved | ].
    intros Hall. destruct (wait fuel this s) as [ [st s'] | ] eqn:Hw; [ | reflexivity ].
    destruct (wait_returned fuel this s Hw) as (k & Hk & -> & -> & Hnp & _).
    exfalso. apply Hnp. apply Hall. exact Hk.
Qed.

(** X2.  Once [wait()] has returned, the block is idle: [isBusy()]
    returns false without a scheduler step, a second [wait()] returns
    the same status at once, and the wait itself only added [loop()]
    calls to the trace and left the manager's members alone. *)
Theorem wait_leaves_block_idle (fuel : nat) (this : ptr) (s : State)
    (st : Z) (s' : State) :
  wait fuel this s = Some (st, s') ->
  isBusy this s' = (false, s') /\
  (forall fuel' : nat, wait fuel' this s' = Some (st, s')) /\
  mgr s' = mgr s /\
  (exists k, (k <= fuel)%nat /\
     trace s' = trace s ++ repeat (EvLoop (timeout (mgr s))) k).
Proof.
  intros Hw.
  destruct (wait_returned fuel this s Hw) as (k & Hk & -> & -> & Hnp & _).
  destruct (loops_frame k s) as (Hm & _ & _ & Ht & _).
  split.
  { unfold isBusy.
    destruct (Z.eqb_spec (status_of this (loops k s)) I2C_STATUS_PENDING);
      [ contradiction | reflexivity ]. }
  split; [ intros fuel'; apply wait_not_pending; exact Hnp | ].
  split; [ exact Hm | ].
  exists k. split; [ exact Hk | exact Ht ].
Qed.

(** X3.  Polling with [isBusy()] until it returns false, then reading
    the status, is the same computation as [wait()]: same result, same
    final state, same scheduler steps, for every amount of fuel. *)
Theorem poll_isBusy_is_wait (fuel : nat) (this : ptr) (s : State) :
  poll fuel this s = wait fuel this s.
Proof.
  revert s. induction fuel as [ | fuel IH ]; intros s; simpl; unfold isBusy;
    destruct (Z.eqb_spec (status_of this s) I2C_STATUS_PENDING) as [Hp | Hnp];
    simpl; try reflexivity.
  apply IH.
Qed.

Lemma reprepared_block_idle (fuel : nat) (this : ptr) (s : State)
    (f : I2CRB -> I2CRB) :
  I2C_STATUS_OK <> I2C_STATUS_PENDING ->
  (forall rb, status (f rb) = I2C_STATUS_OK) ->
  status_of this (on_block this f s) = I2C_STATUS_OK /\
  isBusy this (on_block this f s) = (false, on_block this f s) /\
  wait fuel this (on_block this f s) = Some (I2C_STATUS_OK, on_block this f s) /\
  trace (on_block this f s) = trace s.
Proof.
  intros Hdiff Hf.
  assert (Hst : status_of this (on_block this f s) = I2C_STATUS_OK).
  { unfold status_of, on_block. cbn [with_mem mem store_block blocks].
    rewrite Nat.eqb_refl. apply Hf. }
  split; [ exact Hst | ].
  split.
  { unfold isBusy. rewrite Hst.
    destruct (Z.eqb_spec I2C_STATUS_OK I2C_STATUS_PENDING);
      [ contradiction | reflexivity ]. }
  split; [ | reflexivity ].
  rewrite wait_not_pending; rewrite Hst; [ reflexivity | exact Hdiff ].
Qed.

(** X9.  The parameter setters do not look at the status: applied to a
    block in any state, also one that is still PENDING, each of them
    stores OK, so that [isBusy()] then returns false and [wait()]
    returns OK at once, without a scheduler step and without a word to
    the driver, which may still hold the request. *)
Theorem setter_on_pending_block_hides_pending (fuel : nat) (this : ptr) (s : State)
    (address : Z) (rbuf : bufptr) (rlen : Z) (wbuf : bufptr) (wlen : Z) :
  I2C_STATUS_OK <> I2C_STATUS_PENDING ->
  let w := on_block this (fun rb => setWriteParams rb address wbuf wlen) s in
  let r := on_block this (fun rb => setReadParams rb address rbuf rlen) s in
  let q := on_block this (fun rb => setRequestParams rb address rbuf rlen wbuf wlen) s in
  (isBusy this w = (false, w) /\ wait fuel this w = Some (I2C_STATUS_OK, w) /\
   trace w = trace s /\ hw w = hw s) /\
  (isBusy this r = (false, r) /\ wait fuel this r = Some (I2C_STATUS_OK, r) /\
   trace r = trace s /\ hw r = hw s) /\
  (isBusy this q = (false, q) /\ wait fuel this q = Some (I2C_STATUS_OK, q) /\
   trace q = trace s /\ hw q = hw s).
Proof.
  intros Hdiff w r q.
  destruct (@reprepared_block_idle fuel this s
              (fun rb => setWriteParams rb address wbuf wlen) Hdiff
              (fun _ => eq_refl)) as (_ & Hb1 & Hw1 & Ht1).
  destruct (@reprepared_block_idle fuel this s
              (fun rb => setReadParams rb address rbuf rlen) Hdiff
              (fun _ => eq_refl)) as (_ & Hb2 & Hw2 & Ht2).
  destruct (@reprepared_block_idle fuel this s
              (fun rb => setRequestParams rb address rbuf rlen wbuf wlen) Hdiff
              (fun _ => eq_refl)) as (_ & Hb3 & Hw3 & Ht3).
  repeat split; assumption.
Qed.

End WaitingMore.

Section SuppressMore.
Context {h : I2CManager_h}.

(** X4.  Of two [suppressRetries] calls in a row only the last one
    counts: the block after both is the block after the second alone,
    whatever the operation field held. *)
Theorem suppressRetries_last_call_wins (rb : I2CRB) (b1 b2 : bool) :
  suppressRetries (suppressRetries rb b1) b2 = suppressRetries rb b2.
Proof.
  assert (Hop : operation (suppressRetries (suppressRetries rb b1) b2) =
                operation (suppressRetries rb b2)).
  { apply Z.bits_inj'. intros i Hi.
    rewrite !suppressRetries_testbit by exact Hi.
    destruct b1, b2, (i <? 8), (Z.testbit (operation rb) i),
      (Z.testbit OPERATION_NORETRY i); reflexivity. }
  destruct b1, b2; cbn [suppressRetries set_operation operation status writeLen
                        readLen i2cAddress readBuffer writeBuffer] in *;
    rewrite Hop; reflexivity.
Qed.

End SuppressMore.

(* ================================================================= *)
(** ** Further properties: the clock *)

Lemma fold_min_bounds (l : list Z) :
  forall a : Z,
    fold_left Z.min l a <= a /\ Forall (fun v => fold_left Z.min l a <= v) l.
Proof.
  induction l as [ | v l IH ]; intros a; simpl.
  - split; [ lia | constructor ].
  - destruct (IH (Z.min a v)) as [Hle Hall]. split; [ lia | ].
    constructor; [ lia | exact Hall ].
Qed.

Lemma fold_min_permutation (l l' : list Z) :
  Permutation l l' -> forall a : Z, fold_left Z.min l a = fold_left Z.min l' a.
Proof.
  induction 1 as [ | x l l' _ IH | x y l | l l' l'' _ IH1 _ IH2 ]; intros a; simpl.
  - reflexivity.
  - apply IH.
  - f_equal. lia.
  - rewrite IH1. apply IH2.
Qed.

Lemma last_some_snoc (l : list Z) (v : Z) :
  last (map Some (l ++ [v])) None = Some v.
Proof.
  induction l as [ | x l IH ]; [ reflexivity | ].
  cbn [app map]. cbn [app map] in IH.
  destruct (map Some (l ++ [v])) as [ | y t ] eqn:E.
  - destruct l; discriminate.
  - cbn [last]. exact IH.
Qed.

Section ClockMore.
Context {h : I2CManager_h} {be : Backend}.

Lemma setClock_all_closed_form (speeds : list Z) :
  forall s : State,
    _clockSpeed (mgr (setClock_all speeds s)) =
      if _clockSpeedFixed (mgr s) then _clockSpeed (mgr s)
      else fold_left Z.min speeds (_clockSpeed (mgr s)).
Proof.
  unfold setClock_all.
  induction speeds as [ | v speeds IH ]; intros s; simpl.
  - destruct (_clockSpeedFixed (mgr s)); reflexivity.
  - rewrite IH, setClock_clockSpeedFixed, setClock_clockSpeed.
    destruct (_clockSpeedFixed (mgr s)); simpl.
    + rewrite andb_false_r. reflexivity.
    + rewrite andb_true_r. f_equal.
      destruct (Z.ltb_spec v (_clockSpeed (mgr s))); lia.
Qed.

(** X5.  After a run of [setClock] calls on a rate that is not fixed, the
    negotiated rate is the minimum of the rate before and all requested
    speeds; on a fixed rate it is the rate before.  So the result does
    not depend on the order of the requests, and, unless fixed, it is at
    most every requested speed. *)
Theorem setClock_keeps_the_lowest_request (speeds : list Z) (s : State) :
  (_clockSpeed (mgr (setClock_all speeds s)) =
     if _clockSpeedFixed (mgr s) then _clockSpeed (mgr s)
     else fold_left Z.min speeds (_clockSpeed (mgr s))) /\
  (forall speeds' : list Z, Permutation speeds speeds' ->
     _clockSpeed (mgr (setClock_all speeds' s)) =
     _clockSpeed (mgr (setClock_all speeds s))) /\
  (_clockSpeedFixed (mgr s) = true \/
   Forall (fun v => _clockSpeed (mgr (setClock_all speeds s)) <= v) speeds).
Proof.
  split; [ apply setClock_all_closed_form | ].
  split.
  - intros speeds' Hperm. rewrite !setClock_all_closed_form.
    destruct (_clockSpeedFixed (mgr s)); [ reflexivity | ].
    symmetry. apply fold_min_permutation. exact Hperm.
  - rewrite setClock_all_closed_form.
    destruct (_clockSpeedFixed (mgr s)); [ left; reflexivity | right ].
    apply fold_min_bounds.
Qed.

Lemma setClock_trace (speed : Z) (s : State) :
  trace (setClock speed s) =
    trace s
    ++ (if (speed <? _clockSpeed (mgr s)) && negb (_clockSpeedFixed (mgr s))
        then [EvDiag "I2C clock speed set to %l Hz" [speed]] else [])
    ++ [EvSetClock (_clockSpeed (mgr (setClock speed s)))].
Proof.
  unfold setClock.
  destruct ((speed <? _clockSpeed (mgr s)) && negb (_clockSpeedFixed (mgr s)));
    cbn; rewrite <- ?app_assoc; reflexivity.
Qed.

Lemma forceClock_trace (speed : Z) (s : State) :
  trace (forceClock speed s) =
    trace s ++ [EvSetClock speed; EvDiag "I2C clock speed forced to %l Hz" [speed]].
Proof. cbn. rewrite <- app_assoc. reflexivity. Qed.

Lemma bus_clock_after_call (c : ClockCall) (s : State) :
  bus_clock (trace (clock_call c s)) = Some (_clockSpeed (mgr (clock_call c s))).
Proof.
  unfold bus_clock, clock_calls. destruct c as [v | v]; cbn [clock_call].
  - rewrite setClock_trace, !flat_map_app.
    assert (Hd : flat_map (fun e => match e with EvSetClock v0 => [v0] | _ => [] end)
                   (if (v <? _clockSpeed (mgr s)) && negb (_clockSpeedFixed (mgr s))
                    then [EvDiag "I2C clock speed set to %l Hz" [v]] else []) = [])
      by (destruct ((v <? _clockSpeed (mgr s)) && negb (_clockSpeedFixed (mgr s)));
          reflexivity).
    rewrite Hd. cbn [app flat_map]. apply last_some_snoc.
  - rewrite forceClock_trace, flat_map_app. cbn [flat_map app].
    apply last_some_snoc.
Qed.

(** X6.  [setClock] writes its diagnostic line exactly when it lowers
    the rate and in every case hands the negotiated rate to the driver
    again, also when the request is ignored.  Hence after any history of
    [setClock] and [forceClock] calls that is not empty, the speed last
    handed to the driver is the negotiated rate. *)
Theorem bus_clock_is_negotiated_rate (speed : Z) (c : ClockCall)
    (cs : list ClockCall) (s : State) :
  trace (setClock speed s) =
    trace s
    ++ (if (speed <? _clockSpeed (mgr s)) && negb (_clockSpeedFixed (mgr s))
        then [EvDiag "I2C clock speed set to %l Hz" [speed]] else [])
    ++ [EvSetClock (_clockSpeed (mgr (setClock speed s)))] /\
  bus_clock (trace (clock_history (c :: cs) s)) =
    Some (_clockSpeed (mgr (clock_history (c :: cs) s))).
Proof.
  split; [ apply setClock_trace | ].
  revert c s. unfold clock_history.
  induction cs as [ | c' cs IH ]; intros c s.
  - apply bus_clock_after_call.
  - apply (IH c' (clock_call c s)).
Qed.

End ClockMore.

(* ================================================================= *)
(** ** Further properties: error messages *)

Lemma NoDup_map_injective (A C : Type) (f : A -> C) (l : list A) :
  NoDup (map f l) ->
  forall x y, In x l -> In y l -> f x = f y -> x = y.
Proof.
  induction l as [ | a l IH ]; intros Hnd x y Hx Hy Hxy; [ contradiction | ].
  cbn [map] in Hnd. inversion Hnd as [ | ? ? Hnotin Hnd' ]. subst.
  destruct Hx as [-> | Hx], Hy as [-> | Hy].
  - reflexivity.
  - exfalso. apply Hnotin. rewrite Hxy. apply in_map. exact Hy.
  - exfalso. apply Hnotin. rewrite <- Hxy. apply in_map. exact Hx.
  - apply IH; assumption.
Qed.

Section ErrorMessagesMore.
Context {h : I2CManager_h}.

Lemma getErrorMessage_default (st : Z) :
  ~ In st status_codes -> getErrorMessage st = "Error code not recognised"%string.
Proof.
  intros Hst. unfold status_codes in Hst. cbn [In] in Hst.
  unfold getErrorMessage.
  repeat match goal with
         | |- context [Z.eqb ?a ?b] =>
             destruct (Z.eqb_spec a b); [ exfalso; apply Hst; subst; tauto | ]
         end.
  reflexivity.
Qed.

Lemma getErrorMessage_known (st : Z) :
  distinct_case_labels -> In st status_codes ->
  getErrorMessage st <> "Error code not recognised"%string.
Proof.
  intros Hd Hst Heq.
  assert (Hin : In (getErrorMessage st) (map getErrorMessage status_codes))
    by (apply in_map; exact Hst).
  rewrite (getErrorMessage_cases Hd), Heq in Hin. cbn [In] in Hin.
  intuition discriminate.
Qed.

(** X8.  The message identifies the status: with the case labels
    pairwise distinct, two status values get the same message if and
    only if they are equal or neither is one of the ten known codes. *)
Theorem getErrorMessage_identifies_status (st1 st2 : Z) :
  distinct_case_labels ->
  (getErrorMessage st1 = getErrorMessage st2 <->
   st1 = st2 \/ (~ In st1 status_codes /\ ~ In st2 status_codes)).
Proof.
  intros Hd.
  assert (Hnd : NoDup (map getErrorMessage status_codes)).
  { rewrite (getErrorMessage_cases Hd).
    repeat (constructor; [ cbn [In]; intuition discriminate | ]).
    constructor. }
  split.
  - intros Heq.
    destruct (In_dec Z.eq_dec st1 status_codes) as [H1 | H1];
      destruct (In_dec Z.eq_dec st2 status_codes) as [H2 | H2].
    + left. exact (NoDup_map_injective getErrorMessage status_codes Hnd
                     st1 st2 H1 H2 Heq).
    + exfalso. apply (getErrorMessage_known Hd H1).
      rewrite Heq. apply getErrorMessage_default. exact H2.
    + exfalso. apply (getErrorMessage_known Hd H2).
      rewrite <- Heq. apply getErrorMessage_default. exact H1.
    + right. split; assumption.
  - intros [-> | [H1 H2]]; [ reflexivity | ].
    rewrite (getErrorMessage_default H1), (getErrorMessage_default H2). reflexivity.
Qed.

End ErrorMessagesMore.

(* ================================================================= *)
(** ** Further properties: the diagnostics of the start-up scan *)

Section BeginDiagnostics.
Context {h : I2CManager_h} {be : Backend}.

Lemma probe_events_silent (tmo : Z) (blk : I2CRB) (k : nat) :
  diagnostics (EvQueueRequest tmo blk :: repeat (EvLoop tmo) k) = [] /\
  found_reports (EvQueueRequest tmo blk :: repeat (EvLoop tmo) k) = [].
Proof.
  unfold diagnostics, found_reports. cbn [flat_map app].
  rewrite !flat_map_repeat_nil by reflexivity. split; reflexivity.
Qed.

(** The reports of the [for] loop of [begin] from address [a] on. *)
Lemma scan_reports (N fuel : nat) :
  queue_resolves N -> (N <= fuel)%nat ->
  forall (n : nat) (a : Z) (found : bool) (s : State),
    0 <= a <= 127 -> (Z.to_nat (127 - a) < n)%nat ->
    exists (found' : bool) (s' : State) (evs : list Event),
      scan n fuel a found s = Some (found', s') /\
      mgr s' = mgr s /\
      trace s' = trace s ++ evs /\
      clock_calls evs = [] /\
      diagnostics evs =
        map (fun _ => "I2C Device found at x%x"%string) (found_reports evs) /\
      found' = found || negb (none_of (found_reports evs)) /\
      Forall (fun x => a <= x <= 126) (found_reports evs) /\
      StronglySorted Z.lt (found_reports evs).
Proof.
  intros Hq Hfuel. induction n as [ | n IH ]; intros a found s Ha Hn; [ lia | ].
  cbn [scan]. destruct (Z.ltb_spec a 127) as [Hlt | Hge].
  - destruct (checkAddress_run a s Hq Hfuel)
      as (s_p & k & _ & _ & _ & _ & _ & Hrun & _ & Hm & _ & _ & Ht).
    cbv zeta in Hrun, Hm, Ht.
    set (s_w := loops k (queueRequest (rsp s) s_p)) in *.
    set (blk := suppressRetries
                  (setWriteParams (I2CRB_ctor (blocks (mem s) (rsp s))) a NULL 0)
                  true) in *.
    destruct (probe_events_silent (timeout (mgr s)) blk k) as (Hd0 & Hf0).
    assert (Hc0 : clock_calls (EvQueueRequest (timeout (mgr s)) blk
                                 :: repeat (EvLoop (timeout (mgr s))) k) = []).
    { unfold clock_calls. cbn [flat_map app].
      apply flat_map_repeat_nil. reflexivity. }
    assert (Hnext : to_uint8 (a + 1) = a + 1)
      by (apply to_uint8_id; unfold is_uint8; lia).
    unfold bind at 1. unfold exists_, bind at 1. rewrite Hrun.
    unfold ret at 1. rewrite Hnext.
    destruct (status_of (rsp s) s_w =? I2C_STATUS_OK).
    + unfold bind at 1. unfold bind at 1. unfold call at 1. unfold ret at 1.
      destruct (IH (a + 1) true
                  (DIAG "I2C Device found at x%x" [a] (delete_I2CRB s_w)))
        as (found' & s' & evs & Hscan & Hm' & Ht' & Hc' & Hd' & Hf' & Hr' & Hs');
        [ lia | lia | ].
      exists found', s',
        ((EvQueueRequest (timeout (mgr s)) blk :: repeat (EvLoop (timeout (mgr s))) k)
           ++ [EvDiag "I2C Device found at x%x" [a]] ++ evs).
      assert (Hfr : found_reports
                      ((EvQueueRequest (timeout (mgr s)) blk
                          :: repeat (EvLoop (timeout (mgr s))) k)
                         ++ [EvDiag "I2C Device found at x%x" [a]] ++ evs)
                    = a :: found_reports evs).
      { unfold found_reports in *. rewrite !flat_map_app, Hf0. reflexivity. }
      split; [ exact Hscan | ].
      split; [ rewrite Hm'; exact Hm | ].
      split.
      { rewrite Ht'. cbn [DIAG log trace delete_I2CRB with_rsp].
        rewrite Ht, <- !app_assoc. reflexivity. }
      split.
      { unfold clock_calls in *. rewrite !flat_map_app, Hc0, Hc'. reflexivity. }
      split.
      { rewrite Hfr. unfold diagnostics in *. rewrite !flat_map_app, Hd0, Hd'.
        reflexivity. }
      split; [ rewrite Hfr, Hf'; destruct found; reflexivity | ].
      rewrite Hfr. split.
      * constructor; [ lia | ]. revert Hr'. apply Forall_impl. intros x Hx. lia.
      * constructor; [ exact Hs' | ]. revert Hr'. apply Forall_impl. intros x Hx. lia.
    + unfold bind at 1. unfold ret at 1.
      destruct (IH (a + 1) found (delete_I2CRB s_w))
        as (found' & s' & evs & Hscan & Hm' & Ht' & Hc' & Hd' & Hf' & Hr' & Hs');
        [ lia | lia | ].
      exists found', s',
        ((EvQueueRequest (timeout (mgr s)) blk :: repeat (EvLoop (timeout (mgr s))) k)
           ++ evs).
      assert (Hfr : found_reports
                      ((EvQueueRequest (timeout (mgr s)) blk
                          :: repeat (EvLoop (timeout (mgr s))) k) ++ evs)
                    = found_reports evs).
      { unfold found_reports in *. rewrite !flat_map_app, Hf0. reflexivity. }
      split; [ exact Hscan | ].
      split; [ rewrite Hm'; exact Hm | ].
      split.
      { rewrite Ht'. cbn [trace delete_I2CRB with_rsp].
        rewrite Ht, <- !app_assoc. reflexivity. }
      split.
      { unfold clock_calls in *. rewrite !flat_map_app, Hc0, Hc'. reflexivity. }
      split.
      { rewrite Hfr. unfold diagnostics in *. rewrite !flat_map_app, Hd0, Hd'.
        reflexivity. }
      split; [ rewrite Hfr; exact Hf' | ].
      rewrite Hfr. split; [ | exact Hs' ].
      revert Hr'. apply Forall_impl. intros x Hx. lia.
  - exists found, s, []. unfold ret.
    split; [ reflexivity | ]. split; [ reflexivity | ].
    split; [ rewrite app_nil_r; reflexivity | ].
    split; [ reflexivity | ]. split; [ reflexivity | ].
    split; [ cbn; rewrite orb_false_r; reflexivity | ].
    split; constructor.
Qed.

(** X7.  The diagnostics of the first [begin()], in order: the SDA
    warning exactly when SDA reads low after the driver's bring-up, the
    SCL warning exactly when SCL reads low (neither stops the
    initialisation), one "I2C Device found" line per reported address,
    and "No I2C Devices found" exactly when no address was reported.
    The reported addresses lie in 1..126 and are strictly increasing. *)
Theorem begin_diagnostics (N fuel : nat) (s : State) :
  queue_resolves N -> (N <= fuel)%nat ->
  _beginCompleted (mgr s) = false ->
  exists (s1 : State) (evs : list Event),
    begin fuel s = Some (tt, s1) /\
    trace s1 = trace s ++ evs /\
    diagnostics evs =
      (if digitalRead_hw SDA (_initialise_hw (hw s)) =? 0
       then ["WARNING: Possible short-circuit on I2C SDA line"%string] else [])
      ++ (if digitalRead_hw SCL (_initialise_hw (hw s)) =? 0
          then ["WARNING: Possible short-circuit on I2C SCL line"%string] else [])
      ++ map (fun _ => "I2C Device found at x%x"%string) (found_reports evs)
      ++ (if none_of (found_reports evs)
          then ["No I2C Devices found"%string] else []) /\
    Forall (fun x => 1 <= x <= 126) (found_reports evs) /\
    StronglySorted Z.lt (found_reports evs).
Proof.
  intros Hq Hfuel Hnb. rewrite (begin_first fuel s Hnb). cbv zeta.
  set (s1 := _initialise (set_beginCompleted true s)).
  change (hw s1) with (_initialise_hw (hw s)).
  set (c1 := digitalRead_hw SDA (_initialise_hw (hw s)) =? 0).
  set (s3 := if c1 then DIAG _ [] (log (EvDigitalRead SDA) s1)
             else log (EvDigitalRead SDA) s1).
  assert (Hhw3 : hw s3 = _initialise_hw (hw s)) by (subst s3; destruct c1; reflexivity).
  rewrite Hhw3.
  set (c2 := digitalRead_hw SCL (_initialise_hw (hw s)) =? 0).
  set (s5 := if c2 then DIAG _ [] (log (EvDigitalRead SCL) s3)
             else log (EvDigitalRead SCL) s3).
  set (pre := EvInitialise :: EvDigitalRead SDA
                :: (if c1 then [EvDiag "WARNING: Possible short-circuit on I2C SDA line" []]
                    else [])
                ++ EvDigitalRead SCL
                :: (if c2 then [EvDiag "WARNING: Possible short-circuit on I2C SCL line" []]
                    else [])).
  assert (Ht5 : trace s5 = trace s ++ pre).
  { subst s5 pre s3 s1. destruct c2, c1; cbn; rewrite <- ?app_assoc; reflexivity. }
  destruct (@scan_reports N fuel Hq Hfuel 127%nat 1 false
              (setTimeout 1000 (_setClock 100000 s5)))
    as (found & s8 & evs & Hscan & Hm8 & Ht8 & _ & Hd8 & Hf8 & Hr8 & Hs8);
    [ lia | cbn; lia | ].
  rewrite Hscan.
  cbn [setTimeout _setClock log with_hw with_mgr trace] in Ht8.
  cbn [orb] in Hf8.
  set (post := (if negb found then [EvDiag "No I2C Devices found" []] else [])
               ++ [EvSetClock (_clockSpeed (mgr s8))]).
  assert (Hfr : found_reports (pre ++ EvSetClock 100000 :: evs ++ post)
                = found_reports evs).
  { change (EvSetClock 100000 :: evs ++ post)
      with ([EvSetClock 100000] ++ evs ++ post).
    unfold found_reports. rewrite !flat_map_app.
    subst pre post. destruct c1, c2, found; cbn; rewrite ?app_nil_r; reflexivity. }
  eexists _, (pre ++ EvSetClock 100000 :: evs ++ post).
  split; [ reflexivity | ].
  split.
  { subst post. destruct found;
      cbn [negb DIAG log setTimeout _setClock with_hw with_mgr trace mgr _clockSpeed];
      rewrite Ht8, Ht5, <- !app_assoc; reflexivity. }
  rewrite Hfr. split; [ | split; assumption ].
  change (EvSetClock 100000 :: evs ++ post)
    with ([EvSetClock 100000] ++ evs ++ post).
  unfold diagnostics in *. rewrite !flat_map_app, Hd8.
  assert (Hnone : none_of (found_reports evs) = negb found)
    by (rewrite Hf8, negb_involutive; reflexivity).
  rewrite Hnone. subst pre post.
  destruct c1, c2, found; cbn; rewrite ?app_nil_r; reflexivity.
Qed.

End BeginDiagnostics.

(* ================================================================= *)
(** ** The further properties on concrete inputs *)

(** Witness of X2: waiting for the block of [pending_state]. *)
Lemma wait_leaves_block_idle_witness :
  @wait header_values nak_backend 3 0%nat pending_state =
    Some (2, loop pending_state) /\
  @isBusy header_values nak_backend 0%nat (loop pending_state) =
    (false, loop pending_state).
Proof.
  assert (Hw : @wait header_values nak_backend 3 0%nat pending_state =
               Some (2, loop pending_state)) by reflexivity.
  split; [ exact Hw | ].
  exact (proj1 (@wait_leaves_block_idle header_values nak_backend 3 0%nat
                  pending_state 2 (loop pending_state) Hw)).
Defined.

(** Witness of X9: re-preparing the PENDING block of [pending_state]. *)
Lemma setter_on_pending_block_hides_pending_witness :
  @I2C_STATUS_OK header_values <> @I2C_STATUS_PENDING header_values /\
  status_of 0%nat pending_state = @I2C_STATUS_PENDING header_values /\
  @wait header_values nak_backend 0 0%nat
    (on_block 0%nat (fun rb => @setWriteParams header_values rb 32 512 3) pending_state) =
    Some (@I2C_STATUS_OK header_values,
          on_block 0%nat (fun rb => @setWriteParams header_values rb 32 512 3)
            pending_state).
Proof.
  assert (Hd : @I2C_STATUS_OK header_values <> @I2C_STATUS_PENDING header_values)
    by discriminate.
  split; [ exact Hd | ]. split; [ reflexivity | ].
  exact (proj1 (proj2 (proj1
           (@setter_on_pending_block_hides_pending header_values nak_backend
              0 0%nat pending_state 32 768 4 512 3 Hd)))).
Defined.

(** Witness of X8 on the header's values. *)
Lemma getErrorMessage_identifies_status_witness :
  @distinct_case_labels header_values /\
  (@getErrorMessage header_values 9 = @getErrorMessage header_values 200) /\
  (@getErrorMessage header_values 5 <> @getErrorMessage header_values 6).
Proof.
  split; [ exact header_values_distinct | ].
  split; [ reflexivity | ].
  intros Heq.
  destruct (proj1 (@getErrorMessage_identifies_status header_values 5 6
                     header_values_distinct) Heq) as [H56 | [H5 _]].
  - discriminate.
  - apply H5. cbn. tauto.
Defined.

(** Witness of X7: [begin] from [power_on], where both lines read high
    and no device answers. *)
Lemma begin_diagnostics_witness :
  _beginCompleted (mgr power_on) = false /\
  exists s1 evs,
    @begin header_values nak_backend 3 power_on = Some (tt, s1) /\
    trace s1 = trace power_on ++ evs /\
    Forall (fun x => 1 <= x <= 126) (found_reports evs).
Proof.
  split; [ reflexivity | ].
  assert (Hle : (1 <= 3)%nat) by lia.
  destruct (@begin_diagnostics header_values nak_backend 1 3 power_on
              nak_queue_resolves Hle eq_refl)
    as (s1 & evs & Hrun & Ht & _ & Hr & _).
  exists s1, evs. split; [ exact Hrun | ]. split; [ exact Ht | exact Hr ].
Defined.

(* ================================================================= *)
(** ** Further properties: finishing a request block *)

Section FinishMore.
Context {h : I2CManager_h} {be : Backend}.


End FinishMore.

